(** * usearch-images: the search server (server.py)

    A shallow embedding of [server.py]: the [Dataset] record, [open_dataset],
    the module globals [model] and [datasets], [find_vector] and the five
    remote-callable functions.  The libraries the script only calls (usearch,
    uform, numpy, torch, PIL) are not part of it: their objects are records
    of the methods the script uses, and their functions are fields of a
    class, so every statement below is about the script for whatever those
    libraries do, unless a hypothesis says what is expected of them. *)

From stdpp Require Import base option list gmap strings sorting.

(** ** Python values and exceptions *)

(** The exceptions the script can end with.  [AssertionError] is raised by
    the [assert] of [find_vector], [KeyError] by a dict subscript,
    [IndexError] by a list or tuple subscript, [FileNotFoundError] by the
    builtin [open] and [UnicodeDecodeError] by reading a file that is no
    text; [LibraryError] stands for whatever a called library raises. *)
Inductive exn : Type :=
| AssertionError
| KeyError (key : string)
| IndexError
| FileNotFoundError (path : string)
| UnicodeDecodeError
| LibraryError (what : string).

(** A Python expression either returns a value or raises. *)
Inductive outcome (A : Type) : Type :=
| Return (a : A)
| Raise (e : exn).
Arguments Return {A} a.
Arguments Raise {A} e.

#[global] Instance outcome_ret : MRet outcome := fun A a => Return a.
#[global] Instance outcome_bind : MBind outcome := fun A B f m =>
  match m with
  | Return a => f a
  | Raise e => Raise e
  end.

Definition returns {A} (m : outcome A) : Prop := exists a, m = Return a.

(** [l[i]] for a list or tuple [l] and an integer [i]: a negative index
    counts from the end, and an index that is still out of range raises
    [IndexError]. *)
Definition list_getitem {A} (l : list A) (i : Z) : outcome A :=
  let n := Z.of_nat (length l) in
  let j := if (i <? 0)%Z then (i + n)%Z else i in
  if ((j <? 0)%Z || (n <=? j)%Z)%bool then Raise IndexError
  else match l !! Z.to_nat j with
       | Some x => Return x
       | None => Raise IndexError
       end.

(** [d[k]] for a dict [d]. *)
Definition dict_getitem {V} (d : gmap string V) (k : string) : outcome V :=
  match d !! k with
  | Some v => Return v
  | None => Raise (KeyError k)
  end.

(** [[f(x) for x in xs]]: the elements are evaluated from left to right and
    the first one that raises ends the comprehension. *)
Fixpoint comprehension {A B} (f : A -> outcome B) (xs : list A) : outcome (list B) :=
  match xs with
  | [] => Return []
  | x :: xs' =>
      y ← f x;
      ys ← comprehension f xs';
      Return (y :: ys)
  end.

(** The characters at which [str.splitlines] breaks a line, among the code
    points below 256: LF, VT, FF, CR, FS, GS, RS and NEL.  The strings here
    hold code points below 256 only; U+2028 and U+2029, at which
    [str.splitlines] breaks as well, do not occur in them. *)
Definition is_linebreak (c : Ascii.ascii) : bool :=
  bool_decide (Ascii.N_of_ascii c ∈ [10; 11; 12; 13; 28; 29; 30; 133]%N).

Definition is_cr (c : Ascii.ascii) : bool := bool_decide (Ascii.N_of_ascii c = 13%N).
Definition is_lf (c : Ascii.ascii) : bool := bool_decide (Ascii.N_of_ascii c = 10%N).

(** [splitlines_from s cur after_cr]: [cur] is the line read so far and
    [after_cr] says that the previous character was a CR, whose LF, if it
    follows, belongs to the same line break. *)
Fixpoint splitlines_from (s cur : string) (after_cr : bool) : list string :=
  match s with
  | EmptyString => if decide (cur = EmptyString) then [] else [cur]
  | String c s' =>
      if (after_cr && is_lf c)%bool then splitlines_from s' cur false
      else if is_linebreak c then cur :: splitlines_from s' EmptyString (is_cr c)
      else splitlines_from s' (cur +:+ String c EmptyString) false
  end.

(** [s.splitlines()]. *)
Definition splitlines (s : string) : list string := splitlines_from s EmptyString false.

Definition ends_with_slash (a : string) : bool :=
  match last (String.list_ascii_of_string a) with
  | Some c => bool_decide (Ascii.N_of_ascii c = 47%N)
  | None => false
  end.

Definition starts_with_slash (b : string) : bool :=
  match b with
  | String c _ => bool_decide (Ascii.N_of_ascii c = 47%N)
  | EmptyString => false
  end.

(** [os.path.join(a, b)] on POSIX. *)
Definition path_join (a b : string) : string :=
  if starts_with_slash b then b
  else if decide (a = EmptyString) then b
  else if ends_with_slash a then a +:+ b
  else a +:+ "/" +:+ b.

(** ** numpy arrays *)

(** An [np.ndarray]: its shape and its elements in row-major order. *)
Record ndarray (A : Type) : Type := NdArray {
  shape : list nat;
  data : list A;
}.
Arguments NdArray {A} shape data.
Arguments shape {A} _.
Arguments data {A} _.

(** [a.flatten()]: the same elements as a one-dimensional array. *)
Definition flatten {A} (a : ndarray A) : ndarray A :=
  {| shape := [length (data a)]; data := data a |}.

(** [a.shape[k]]. *)
Definition shape_at {A} (a : ndarray A) (k : Z) : outcome Z :=
  n ← list_getitem (shape a) k; Return (Z.of_nat n).

(** ** The called libraries *)

(** The types of the values the script passes between library calls without
    looking inside: numpy's float scalars, PIL images, uform's preprocessed
    inputs and torch tensors; [detach_numpy t] is [t.detach().numpy()]. *)
Class Foreign : Type := {
  scalar : Type;
  Image : Type;
  TextData : Type;
  ImageData : Type;
  Tensor : Type;
  detach_numpy : Tensor -> outcome (ndarray scalar);
}.

Inductive MetricKind : Type := Cos | IP | L2sq.

Section Objects.
Context {F : Foreign}.

(** [usearch.index.Matches]: the labels found and their distances, one row
    per query vector. *)
Record Matches : Type := {
  labels : ndarray Z;
  distances : ndarray scalar;
}.

(** A [usearch.index.Index] as the script sees it: [len(index)],
    [index.ndim] and [index.search(vector, count)].  A search reads the
    index and changes nothing the script can see, so it is a function of
    its arguments. *)
Record Index : Type := {
  index_len : nat;
  ndim : Z;
  search : ndarray scalar -> Z -> outcome Matches;
}.

(** The uform model as the script sees it: its four methods, each a
    function of its argument (the model is loaded once and keeps no state
    between calls). *)
Record Model : Type := {
  preprocess_text : string -> outcome TextData;
  encode_text : TextData -> outcome Tensor;
  preprocess_image : Image -> outcome ImageData;
  encode_image : ImageData -> outcome Tensor;
}.

(** [@dataclass class Dataset]. *)
Record Dataset : Type := {
  index : Index;
  uris : list string;
  vectors : ndarray scalar;
}.

(** What a file holds, for the three kinds of file a dataset directory
    has: a matrix of vectors ([images.fbin]), a persisted index with its
    dimensionality and the labels of its entries ([images.usearch]) and a
    text ([images.txt]). *)
Inductive file : Type :=
| MatrixFile (m : ndarray scalar)
| IndexFile (dims : Z) (keys : list Z)
| TextFile (text : string).

(** The library functions the script calls: [usearch.io.load_matrix] (with
    [view=True]), the constructor [Index(ndim=, metric=, path=)],
    [usearch.server._ascii_to_vector] and [uform.get_model].  The first two
    read the file system, a map from paths to files. *)
Class Libraries : Type := {
  load_matrix : gmap string file -> string -> outcome (ndarray scalar);
  Index_new : gmap string file -> Z -> MetricKind -> string -> outcome Index;
  _ascii_to_vector : string -> outcome (ndarray scalar);
  get_model : string -> outcome Model;
}.

End Objects.

(** ** server.py *)

Module Server.
Section Script.
Context {F : Foreign} {L : Libraries}.

(** [open(path, "r").read()]. *)
Definition open_read (fs : gmap string file) (path : string) : outcome string :=
  match fs !! path with
  | Some (TextFile text) => Return text
  | Some _ => Raise UnicodeDecodeError
  | None => Raise (FileNotFoundError path)
  end.

Definition open_dataset (fs : gmap string file) (dir : string) : outcome Dataset :=
  vectors ← load_matrix fs (path_join dir "images.fbin");
  ndim ← shape_at vectors 1;
  index ← Index_new fs ndim Cos (path_join dir "images.usearch");
  text ← open_read fs (path_join dir "images.txt");
  let uris := splitlines text in
  Return {| index := index; uris := uris; vectors := vectors |}.

(** [{name: f(name) for name in names}], filling [acc] from left to right. *)
Fixpoint dict_comprehension {V} (f : string -> outcome V) (names : list string)
    (acc : gmap string V) : outcome (gmap string V) :=
  match names with
  | [] => Return acc
  | name :: names' =>
      v ← f name;
      dict_comprehension f names' (<[name := v]> acc)
  end.

(** The module globals [model] and [datasets]. *)
Record Globals : Type := {
  model : Model;
  datasets : gmap string Dataset;
}.

(** Running the top of the module: lines 39 and 40. *)
Definition startup (fs : gmap string file) : outcome Globals :=
  model ← get_model "unum-cloud/uform-vl-multilingual";
  datasets ← dict_comprehension (open_dataset fs) ["unsplash25k"; "cc3m"] ∅;
  Return {| model := model; datasets := datasets |}.

(** A function of the module runs against the globals: it returns or
    raises, and leaves the globals as they are then. *)
Definition Handler (A : Type) : Type := Globals -> outcome A * Globals.

#[global] Instance handler_ret : MRet Handler := fun A a g => (Return a, g).
#[global] Instance handler_bind : MBind Handler := fun A B f m g =>
  match m g with
  | (Return a, g') => f a g'
  | (Raise e, g') => (Raise e, g')
  end.

(** Reading a global. *)
Definition global_model : Handler Model := fun g => (Return (model g), g).
Definition global_datasets : Handler (gmap string Dataset) :=
  fun g => (Return (datasets g), g).

(** An expression that names no global. *)
Definition eval {A} (m : outcome A) : Handler A := fun g => (m, g).

(** [assert b]. *)
Definition assert_ (b : bool) : Handler unit :=
  eval (if b then Return tt else Raise AssertionError).

Definition find_vector (dataset_name : string) (vector : ndarray scalar) (count : Z)
    : Handler (list string) :=
  let vector := flatten vector in
  keys ← global_datasets;
  _ ← assert_ (bool_decide (dataset_name ∈ dom keys));
  ds ← global_datasets;
  dataset ← eval (dict_getitem ds dataset_name);
  matches ← eval (search (index dataset) vector count);
  let ids := flatten (labels matches) in
  eval (comprehension (fun id => list_getitem (uris dataset) id) (data ids)).

Definition find_with_vector (dataset query : string) (count : Z) : Handler (list string) :=
  vector ← eval (_ascii_to_vector query);
  find_vector dataset vector count.

Definition find_with_text (dataset query : string) (count : Z) : Handler (list string) :=
  m ← global_model;
  text_data ← eval (preprocess_text m query);
  m ← global_model;
  tensor ← eval (encode_text m text_data);
  text_embedding ← eval (detach_numpy tensor);
  find_vector dataset text_embedding count.

Definition find_with_image (dataset : string) (query : Image) (count : Z)
    : Handler (list string) :=
  m ← global_model;
  image_data ← eval (preprocess_image m query);
  m ← global_model;
  tensor ← eval (encode_image m image_data);
  image_embedding ← eval (detach_numpy tensor);
  find_vector dataset image_embedding count.

Definition size (dataset : string) : Handler Z :=
  ds ← global_datasets;
  d ← eval (dict_getitem ds dataset);
  mret (Z.of_nat (index_len (index d))).

Definition dimensions (dataset : string) : Handler Z :=
  ds ← global_datasets;
  d ← eval (dict_getitem ds dataset);
  mret (ndim (index d)).

(** The remote calls the server accepts, and what it answers. *)
Inductive call : Type :=
| FindWithVector (dataset query : string) (count : Z)
| FindWithText (dataset query : string) (count : Z)
| FindWithImage (dataset : string) (query : Image) (count : Z)
| Size (dataset : string)
| Dimensions (dataset : string).

Inductive reply : Type :=
| Uris (l : list string)
| Int (n : Z).

Definition serve (c : call) : Handler reply :=
  match c with
  | FindWithVector d q k => l ← find_with_vector d q k; mret (Uris l)
  | FindWithText d q k => l ← find_with_text d q k; mret (Uris l)
  | FindWithImage d q k => l ← find_with_image d q k; mret (Uris l)
  | Size d => n ← size d; mret (Int n)
  | Dimensions d => n ← dimensions d; mret (Int n)
  end.

(** [server.run()] on a sequence of calls: the replies and the globals at
    the end. *)
Fixpoint run (cs : list call) (g : Globals) : list (outcome reply) * Globals :=
  match cs with
  | [] => ([], g)
  | c :: cs' =>
      let '(r, g') := serve c g in
      let '(rs, g'') := run cs' g' in
      (r :: rs, g'')
  end.

End Script.
End Server.

(** ** streamlit_app.py: the grid of results

    The loop at the end of the page (lines 234 to 239).  Of Streamlit it
    uses [st.columns(n)], which lays a new row of [n] empty containers
    below what the page holds and refuses an [n] that is not positive, and
    [st.image] inside [with cols[i]], which adds an image to the container
    [cols[i]] and raises for a string it cannot display.  Which strings it
    can display (a URL, the path of an image file it can read) is
    Streamlit's to say: the loop takes it as [displayable]. *)

Module Page.

(** What can end the loop before the last match. *)
Inductive crash : Type :=
| ZeroDivisionError
| NameError
| SubscriptError
| StreamlitAPIException
| MediaFileStorageError.

(** [l[:stop]]: a negative [stop] counts from the end, and the bound is
    clipped to the list. *)
Definition slice_to {A} (l : list A) (stop : Z) : list A :=
  let n := Z.of_nat (length l) in
  let stop := if (stop <? 0)%Z then Z.max 0 (stop + n) else Z.min stop n in
  take (Z.to_nat stop) l.

(** The page while the loop runs: the rows above the one [cols] names, and
    [cols], unbound before the first [st.columns].  A row is the list of
    its containers, a container the list of the images put into it. *)
Record canvas : Type := {
  above : list (list (list string));
  cols : option (list (list string));
}.

Definition blank : canvas := {| above := []; cols := None |}.

(** The rows of the page, from the top. *)
Definition page (st : canvas) : list (list (list string)) :=
  above st ++ option_list (cols st).

(** [cols = st.columns(columns, gap="small")]. *)
Definition st_columns (columns : Z) (st : canvas) : result canvas crash :=
  if (columns <=? 0)%Z then Error StreamlitAPIException
  else Ok {| above := page st; cols := Some (replicate (Z.to_nat columns) []) |}.

(** [with cols[col_idx]: st.image(match, use_column_width="always")]:
    [cols] is read, then subscripted, then the image is added if Streamlit
    can display it. *)
Definition st_image_in (displayable : string -> bool) (col_idx : Z) (match_ : string)
    (st : canvas) : result canvas crash :=
  match cols st with
  | None => Error NameError
  | Some row =>
      match list_getitem row col_idx with
      | Raise _ => Error SubscriptError
      | Return container =>
          if displayable match_ then
            let at_ := if (col_idx <? 0)%Z then (col_idx + Z.of_nat (length row))%Z
                       else col_idx in
            Ok {| above := above st;
                  cols := Some (<[Z.to_nat at_ := container ++ [match_]]> row) |}
          else Error MediaFileStorageError
      end
  end.

(** The body of the loop for the match at [match_idx]. *)
Definition place (displayable : string -> bool) (columns : Z) (st : canvas)
    (match_idx : nat) (match_ : string) : result canvas crash :=
  if decide (columns = 0%Z) then Error ZeroDivisionError
  else
    let col_idx := (Z.of_nat match_idx `mod` columns)%Z in
    match (if decide (col_idx = 0%Z) then st_columns columns st else Ok st) with
    | Error e => Error e
    | Ok st' => st_image_in displayable col_idx match_ st'
    end.

(** [for match_idx, match in enumerate(matches)], counting from
    [match_idx]. *)
Fixpoint render_from (displayable : string -> bool) (columns : Z)
    (matches : list string) (match_idx : nat) (st : canvas) : result canvas crash :=
  match matches with
  | [] => Ok st
  | match_ :: rest =>
      match place displayable columns st match_idx match_ with
      | Error e => Error e
      | Ok st' => render_from displayable columns rest (S match_idx) st'
      end
  end.

(** Lines 234 to 239 on a blank page. *)
Definition render (displayable : string -> bool) (results : list string)
    (columns max_rows : Z) : result canvas crash :=
  render_from displayable columns (slice_to results (columns * max_rows)) 0 blank.

(** A row that shows [shown] from the left, one image per container, in
    [columns] containers. *)
Definition row_of (columns : nat) (shown : list string) : list (list string) :=
  ((fun x => [x]) <$> shown) ++ replicate (columns - length shown) [].

(** The page shows [shown] as a grid: nothing when there is nothing to
    show; otherwise full rows of [columns] images, then the row [cols]
    names with the images left over, at least one, from its left. *)
Definition laid_out (columns : nat) (shown : list string) (st : canvas) : Prop :=
  (shown = [] /\ st = blank)
  \/ exists full last,
       shown = concat full ++ last
       /\ Forall (fun r => length r = columns) full
       /\ 0 < length last <= columns
       /\ above st = row_of columns <$> full
       /\ cols st = Some (row_of columns last).

End Page.

(** ** A concrete world to run the script in

    Stand-ins for the libraries, used only to evaluate the script on
    concrete directories and calls.  Scalars and pixels are integers; the
    loaders read back what the files hold; like usearch's constructor,
    [Index_new] restores the persisted index when the file at [path] exists
    and starts an empty index of the requested dimensionality otherwise. *)
Module Sample.

Definition foreign : Foreign := {|
  scalar := Z;
  Image := list Z;
  TextData := string;
  ImageData := list Z;
  Tensor := list Z;
  detach_numpy := fun t => Return (NdArray [1; length t] t);
|}.

Section World.
#[local] Existing Instance foreign.

(** An exhaustive index over [keys]: a search answers with the first
    [count] labels in one row, at distances 0, 1, 2, ... *)
Definition answer (found : list Z) : Matches := {|
  labels := NdArray [1; length found] found;
  distances := NdArray [1; length found] (Z.of_nat <$> seq 0 (length found));
|}.

Definition exhaustive (dims : Z) (keys : list Z) : Index := {|
  index_len := length keys;
  ndim := dims;
  search := fun _ count => Return (answer (take (Z.to_nat count) keys));
|}.

Definition codes (s : string) : list Z :=
  (fun c => Z.of_N (Ascii.N_of_ascii c)) <$> String.list_ascii_of_string s.

Definition uform_model : Model := {|
  preprocess_text := fun q => Return q;
  encode_text := fun q => Return (codes q);
  preprocess_image := fun img =>
    if decide (img = []) then Raise (LibraryError "cannot identify image")
    else Return img;
  encode_image := fun img => Return img;
|}.

Definition libraries : Libraries := {|
  load_matrix := fun fs path =>
    match fs !! path with
    | Some (MatrixFile m) => Return m
    | Some _ => Raise (LibraryError "not a matrix file")
    | None => Raise (FileNotFoundError path)
    end;
  Index_new := fun fs n _ path =>
    match fs !! path with
    | Some (IndexFile dims keys) => Return (exhaustive dims keys)
    | Some _ => Raise (LibraryError "not an index file")
    | None => Return (exhaustive n [])
    end;
  _ascii_to_vector := fun q =>
    if forallb (fun x => (x <? 128)%Z) (codes q)
    then Return (NdArray [length (codes q)] (codes q))
    else Raise (LibraryError "malformed vector");
  get_model := fun _ => Return uform_model;
|}.
#[local] Existing Instance libraries.

(** A matrix of [rows] rows and [cols] columns of zeros. *)
Definition zeros (rows cols : nat) : ndarray Z :=
  NdArray [rows; cols] (replicate (rows * cols) 0%Z).

Definition newline : string := String (Ascii.ascii_of_N 10) EmptyString.

(** The dataset these loaders make of such a directory. *)
Definition loaded (rows cols : nat) (dims : Z) (keys : list Z) (lines : list string)
    : Dataset :=
  {| index := exhaustive dims keys; uris := lines; vectors := zeros rows cols |}.

(** A dataset directory: [rows] vectors of [cols] columns, an index of
    dimensionality [dims] over [keys], and the URIs [lines]. *)
Definition directory (dir : string) (rows cols : nat) (dims : Z) (keys : list Z)
    (lines : list string) : gmap string file :=
  {[ path_join dir "images.fbin" := MatrixFile (zeros rows cols);
     path_join dir "images.usearch" := IndexFile dims keys;
     path_join dir "images.txt" := TextFile (String.concat newline lines) ]}.

(** Two datasets whose files agree: three vectors and two vectors. *)
Definition fs_agree : gmap string file :=
  directory "unsplash25k" 3 4 4 [0; 1; 2]%Z ["u0"; "u1"; "u2"]
  ∪ directory "cc3m" 2 4 4 [0; 1]%Z ["c0"; "c1"].

(** The index of [cc3m] holds three entries, one labelled 5, for two URIs
    and four vectors. *)
Definition fs_differ : gmap string file :=
  directory "unsplash25k" 3 4 4 [0; 1; 2]%Z ["u0"; "u1"; "u2"]
  ∪ directory "cc3m" 4 4 4 [0; 5; 1]%Z ["c0"; "c1"].

(** [cc3m] has no index file, and the index of [unsplash25k] was built for
    vectors of 8 columns while the matrix has 4. *)
Definition fs_broken : gmap string file :=
  directory "unsplash25k" 3 4 8 [0; 1; 2]%Z ["u0"; "u1"; "u2"]
  ∪ delete (path_join "cc3m" "images.usearch")
      (directory "cc3m" 2 4 4 [0; 1]%Z ["c0"; "c1"]).


(** An approximate index: a search visits the first [reach] entries only,
    so its answer can hold fewer labels than were asked for. *)
Definition approximate (reach : nat) (dims : Z) (keys : list Z) : Index := {|
  index_len := length keys;
  ndim := dims;
  search := fun _ count => Return (answer (take (Z.to_nat count `min` reach) keys));
|}.

(** The same loaders over approximate indexes. *)
Definition approximate_libraries (reach : nat) : Libraries := {|
  load_matrix := load_matrix (Libraries := libraries);
  Index_new := fun fs n _ path =>
    match fs !! path with
    | Some (IndexFile dims keys) => Return (approximate reach dims keys)
    | Some _ => Raise (LibraryError "not an index file")
    | None => Return (approximate reach n [])
    end;
  _ascii_to_vector := _ascii_to_vector (Libraries := libraries);
  get_model := get_model (Libraries := libraries);
|}.

(** The dataset they make of a directory, and the globals once the top of
    the module has run on [fs] with them. *)
Definition glanced (reach rows cols : nat) (dims : Z) (keys : list Z)
    (lines : list string) : Dataset :=
  {| index := approximate reach dims keys; uris := lines; vectors := zeros rows cols |}.

Definition glancing (reach : nat) (fs : gmap string file) : Server.Globals :=
  match Server.startup (L := approximate_libraries reach) fs with
  | Return g => g
  | Raise _ => {| Server.model := uform_model; Server.datasets := ∅ |}
  end.

(** The globals once the top of the module has run on [fs]. *)
Definition serving (fs : gmap string file) : Server.Globals :=
  match Server.startup fs with
  | Return g => g
  | Raise _ => {| Server.model := uform_model; Server.datasets := ∅ |}
  end.

(** A query vector of four zeros and one that is no ASCII text. *)
Definition zero_vector : ndarray Z := zeros 1 4.
Definition not_ascii : string := String (Ascii.ascii_of_N 200) EmptyString.

End World.
End Sample.

(** ** Lines of text *)

(** A string without any of the characters [str.splitlines] breaks at. *)
Fixpoint no_break (s : string) : Prop :=
  match s with
  | EmptyString => True
  | String c s' => is_linebreak c = false /\ no_break s'
  end.

(** The text that holds [lines], each ended by a line feed. *)
Fixpoint unlines (lines : list string) : string :=
  match lines with
  | [] => EmptyString
  | l :: lines' => l +:+ String (Ascii.ascii_of_N 10) (unlines lines')
  end.

(** ** The properties stated of the script *)

Section Properties.
Context {F : Foreign} {L : Libraries}.

(** A handler that leaves the globals as it found them. *)
Definition read_only {A} (m : Server.Handler A) : Prop :=
  forall g, (m g).2 = g.

(** The query encodings of [find_with_text] (lines 62 and 63) and of
    [find_with_image] (lines 70 and 71), which run before [find_vector] is
    entered. *)
Definition text_embedding (m : Model) (query : string) : outcome (ndarray scalar) :=
  text_data ← preprocess_text m query;
  tensor ← encode_text m text_data;
  detach_numpy tensor.

Definition image_embedding (m : Model) (query : Image) : outcome (ndarray scalar) :=
  image_data ← preprocess_image m query;
  tensor ← encode_image m image_data;
  detach_numpy tensor.

(** What a call with a query whose encoding is [encoded] ends with when the
    dataset check of [find_vector] fails: the encoding's own exception if it
    raised, the failed assertion otherwise. *)
Definition fails_before_search {A B} (encoded : outcome A) : outcome B :=
  match encoded with
  | Return _ => Raise AssertionError
  | Raise e => Raise e
  end.

(** The number of rows of a matrix: [a.shape[0]]. *)
Definition rows {A} (a : ndarray A) : option nat := shape a !! 0.

(** The invariant of the data model: as many URIs as indexed vectors. *)
Definition aligned (D : Dataset) : Prop :=
  length (uris D) = index_len (index D).


(** The (label, distance) list of an answer of the index. *)
Definition pairs (found : Matches) : list (Z * scalar) :=
  zip (data (labels found)) (data (distances found)).

(** An answer lists its matches nearest first: one distance per label, and
    no distance is [closer] than one before it.  [closer d d'] reads: a
    match at distance [d] is at least as similar to the query as one at
    distance [d']. *)
Definition nearest_first (closer : scalar -> scalar -> Prop) (found : Matches) : Prop :=
  length (data (distances found)) = length (data (labels found))
  /\ StronglySorted closer (data (distances found)).

End Properties.

(** ** Subscripts and comprehensions *)

Section Subscripts.
Context {A : Type}.
Implicit Types (l : list A) (i : Z).

Lemma list_getitem_nonneg l i :
  (0 <= i < Z.of_nat (length l))%Z ->
  exists x, l !! Z.to_nat i = Some x /\ list_getitem l i = Return x.
Proof.
  intros Hi. unfold list_getitem.
  destruct (Z.ltb_spec i 0) as [?|_]; [lia|].
  destruct (Z.ltb_spec i 0) as [?|_]; [lia|].
  destruct (Z.leb_spec (Z.of_nat (length l)) i) as [?|_]; [lia|]. simpl.
  destruct (lookup_lt_is_Some_2 l (Z.to_nat i)) as [x Hx]; [lia|].
  exists x. by rewrite Hx.
Qed.

Lemma list_getitem_negative l i :
  (- Z.of_nat (length l) <= i < 0)%Z ->
  exists x, l !! Z.to_nat (Z.of_nat (length l) + i) = Some x
            /\ list_getitem l i = Return x.
Proof.
  intros Hi. unfold list_getitem.
  destruct (Z.ltb_spec i 0) as [_|?]; [|lia].
  destruct (Z.ltb_spec (i + Z.of_nat (length l)) 0) as [?|_]; [lia|].
  destruct (Z.leb_spec (Z.of_nat (length l)) (i + Z.of_nat (length l))) as [?|_]; [lia|].
  simpl. rewrite (Z.add_comm i).
  destruct (lookup_lt_is_Some_2 l (Z.to_nat (Z.of_nat (length l) + i))) as [x Hx]; [lia|].
  exists x. by rewrite Hx.
Qed.

Lemma list_getitem_out l i :
  (i < - Z.of_nat (length l) \/ Z.of_nat (length l) <= i)%Z ->
  list_getitem l i = Raise IndexError.
Proof.
  intros Hi. unfold list_getitem.
  destruct (Z.ltb_spec i 0).
  - destruct (Z.ltb_spec (i + Z.of_nat (length l)) 0) as [_|?]; [done|lia].
  - destruct (Z.ltb_spec i 0) as [?|_]; [lia|].
    destruct (Z.leb_spec (Z.of_nat (length l)) i) as [_|?]; [done|lia].
Qed.

(** A subscript returns exactly on the indices from [-len(l)] to
    [len(l) - 1], and raises nothing but [IndexError]. *)
Lemma list_getitem_cases l i :
  ((- Z.of_nat (length l) <= i < Z.of_nat (length l))%Z
   /\ exists x, list_getitem l i = Return x)
  \/ ((i < - Z.of_nat (length l) \/ Z.of_nat (length l) <= i)%Z
      /\ list_getitem l i = Raise IndexError).
Proof.
  destruct (decide (i < - Z.of_nat (length l) \/ Z.of_nat (length l) <= i)%Z) as [Hout|Hin].
  - right. split; [done|]. by apply list_getitem_out.
  - left. split; [lia|].
    destruct (decide (i < 0)%Z).
    + destruct (list_getitem_negative l i) as (x & _ & ->); [lia|]. by exists x.
    + destruct (list_getitem_nonneg l i) as (x & _ & ->); [lia|]. by exists x.
Qed.

Lemma list_getitem_Return l i x :
  list_getitem l i = Return x ->
  (- Z.of_nat (length l) <= i < Z.of_nat (length l))%Z.
Proof.
  destruct (list_getitem_cases l i) as [[? _]|[_ ->]]; [done|discriminate].
Qed.

Lemma list_getitem_Raise l i e :
  list_getitem l i = Raise e ->
  e = IndexError /\ (i < - Z.of_nat (length l) \/ Z.of_nat (length l) <= i)%Z.
Proof.
  destruct (list_getitem_cases l i) as [[_ [x ->]]|[? ->]]; [discriminate|].
  intros [= <-]. done.
Qed.

End Subscripts.

Section Comprehensions.
Context {A B : Type}.
Implicit Types (f : A -> outcome B) (xs : list A) (ys : list B).

(** A comprehension returns when every element does, and then holds the
    elements' values in the order of [xs]. *)
Lemma comprehension_Return f xs ys :
  comprehension f xs = Return ys <-> Forall2 (fun x y => f x = Return y) xs ys.
Proof.
  revert ys. induction xs as [|x xs IH]; intros ys; simpl.
  - split.
    + intros [= <-]. constructor.
    + intros Hall. by inversion Hall.
  - unfold mbind, outcome_bind. destruct (f x) as [y|e] eqn:Hfx.
    + destruct (comprehension f xs) as [ys'|e] eqn:Hrest.
      * split.
        -- intros [= <-]. constructor; [done|]. by apply IH.
        -- intros Hall. inversion Hall as [|? y0 ? ys0 Hy Htl]; subst.
           apply IH in Htl. congruence.
      * split; [discriminate|].
        intros Hall. inversion Hall as [|? y0 ? ys0 Hy Htl]; subst.
        apply IH in Htl. discriminate.
    + split; [discriminate|].
      intros Hall. inversion Hall; subst. congruence.
Qed.

(** It raises what the first failing element raises. *)
Lemma comprehension_Raise f xs e :
  comprehension f xs = Raise e <->
  exists pre x post, xs = pre ++ x :: post
    /\ Forall (fun x' => returns (f x')) pre /\ f x = Raise e.
Proof.
  induction xs as [|x xs IH]; simpl.
  - split; [discriminate|]. intros (pre & x & post & Heq & _).
    by destruct pre.
  - unfold mbind, outcome_bind. destruct (f x) as [y|e'] eqn:Hfx.
    + destruct (comprehension f xs) as [ys'|e''] eqn:Hrest.
      * split; [discriminate|].
        intros (pre & x' & post & Heq & Hpre & Hx').
        destruct pre as [|p pre]; simplify_eq/=; [congruence|].
        assert (Return ys' = Raise e) as Habs; [|discriminate].
        apply IH. exists pre, x', post. by inversion Hpre.
      * split.
        -- intros [= ->]. destruct (proj1 IH eq_refl) as (pre & x' & post & -> & Hpre & Hx').
           exists (x :: pre), x', post. split_and!; [done| |done].
           constructor; [by exists y|done].
        -- intros (pre & x' & post & Heq & Hpre & Hx').
           destruct pre as [|p pre]; simplify_eq/=; [congruence|].
           f_equal. assert (@Raise (list B) e'' = Raise e) as [= ->]; [|done].
           apply IH. exists pre, x', post. by inversion Hpre.
    + split.
      * intros [= ->]. exists [], x, xs. by split_and!.
      * intros (pre & x' & post & Heq & Hpre & Hx').
        destruct pre as [|p pre]; simplify_eq/=; [congruence|].
        inversion Hpre as [|? ? [y Hy] _]; subst. congruence.
Qed.

Lemma comprehension_length f xs ys :
  comprehension f xs = Return ys -> length ys = length xs.
Proof.
  intros Hret. apply comprehension_Return in Hret.
  symmetry. by eapply Forall2_length.
Qed.

End Comprehensions.

(** ** What the handlers compute *)

Section Handlers.
Context {F : Foreign} {L : Libraries}.
Implicit Types (g : Server.Globals) (D : Dataset).

(** On a name of the registry, [find_vector] is the search followed by the
    comprehension over the labels found, and the globals stay. *)
Lemma find_vector_known g name D vector count :
  Server.datasets g !! name = Some D ->
  Server.find_vector name vector count g =
    (found ← search (index D) (flatten vector) count;
     comprehension (list_getitem (uris D)) (data (labels found)), g).
Proof.
  intros Hname. unfold Server.find_vector, Server.global_datasets, Server.assert_,
    Server.eval, mbind, Server.handler_bind, outcome_bind. simpl.
  rewrite bool_decide_true; [|apply elem_of_dom; by exists D].
  unfold dict_getitem. rewrite Hname.
  by destruct (search (index D) (flatten vector) count).
Qed.

(** On any other name the assertion fails. *)
Lemma find_vector_unknown g name vector count :
  Server.datasets g !! name = None ->
  Server.find_vector name vector count g = (Raise AssertionError, g).
Proof.
  intros Hname. unfold Server.find_vector, Server.global_datasets, Server.assert_,
    Server.eval, mbind, Server.handler_bind. simpl.
  rewrite bool_decide_false; [done|].
  rewrite elem_of_dom, Hname. by intros [? ?].
Qed.

Lemma read_only_ret {A} (a : A) : read_only (mret a : Server.Handler A).
Proof. by intros g. Qed.

Lemma read_only_eval {A} (m : outcome A) : read_only (Server.eval m).
Proof. by intros g. Qed.

Lemma read_only_global_model : read_only Server.global_model.
Proof. by intros g. Qed.

Lemma read_only_global_datasets : read_only Server.global_datasets.
Proof. by intros g. Qed.

Lemma read_only_bind {A B} (m : Server.Handler A) (f : A -> Server.Handler B) :
  read_only m -> (forall a, read_only (f a)) -> read_only (m ≫= f).
Proof.
  intros Hm Hf g. unfold mbind, Server.handler_bind.
  specialize (Hm g). destruct (m g) as [[a|e] g']; simpl in *; subst; [apply Hf|done].
Qed.

Lemma read_only_assert b : read_only (Server.assert_ b).
Proof. apply read_only_eval. Qed.

Create HintDb read_only.
#[local] Hint Resolve read_only_ret read_only_eval read_only_global_model
  read_only_global_datasets read_only_assert : read_only.
#[local] Hint Extern 2 (read_only (mbind _ _)) =>
  apply read_only_bind; [|intros ?] : read_only.

Lemma read_only_find_vector name vector count :
  read_only (Server.find_vector name vector count).
Proof. unfold Server.find_vector. auto 20 with read_only. Qed.

Lemma read_only_find_with_vector name query count :
  read_only (Server.find_with_vector name query count).
Proof.
  unfold Server.find_with_vector.
  apply read_only_bind; [auto with read_only|intros ?; apply read_only_find_vector].
Qed.

Lemma read_only_find_with_text name query count :
  read_only (Server.find_with_text name query count).
Proof.
  unfold Server.find_with_text.
  do 5 (apply read_only_bind; [auto with read_only|intros ?]).
  apply read_only_find_vector.
Qed.

Lemma read_only_find_with_image name query count :
  read_only (Server.find_with_image name query count).
Proof.
  unfold Server.find_with_image.
  do 5 (apply read_only_bind; [auto with read_only|intros ?]).
  apply read_only_find_vector.
Qed.

Lemma read_only_size name : read_only (Server.size name).
Proof. unfold Server.size. auto 10 with read_only. Qed.

Lemma read_only_dimensions name : read_only (Server.dimensions name).
Proof. unfold Server.dimensions. auto 10 with read_only. Qed.

Lemma read_only_serve c : read_only (Server.serve c).
Proof.
  destruct c; simpl; (apply read_only_bind; [|auto with read_only]);
    auto using read_only_find_with_vector, read_only_find_with_text,
      read_only_find_with_image, read_only_size, read_only_dimensions.
Qed.

(** Over a sequence of calls the globals stay, so each reply is the one
    its call gives on the globals the server started with. *)
Lemma run_frame cs g :
  Server.run cs g = ((fun c => (Server.serve c g).1) <$> cs, g).
Proof.
  revert g. induction cs as [|c cs IH]; intros g; simpl; [done|].
  pose proof (read_only_serve c g) as Hc.
  destruct (Server.serve c g) as [r g']. simpl in Hc. subst g'.
  by rewrite IH.
Qed.

End Handlers.

(** ** The frame of the remote calls *)

Section Frame.
Context {F : Foreign} {L : Libraries}.

(** C8: no remote call changes the globals (the registry with every
    dataset's index, URIs and vectors, and the model), and over any
    sequence of calls each reply is what its call computes from its
    arguments and the globals the server started with. *)
Theorem endpoints_read_only :
  (forall c g, (Server.serve c g).2 = g)
  /\ (forall cs g, Server.run cs g = ((fun c => (Server.serve c g).1) <$> cs, g)).
Proof.
  split; [intros c g; apply read_only_serve|intros cs g; apply run_frame].
Qed.

End Frame.

(** ** Calls on a name that is not in the registry *)

Section UnknownDataset.
Context {F : Foreign} {L : Libraries}.
Implicit Types (g : Server.Globals).

Lemma find_with_vector_unfold g name query count :
  Server.find_with_vector name query count g =
    match _ascii_to_vector query with
    | Return vector => Server.find_vector name vector count g
    | Raise e => (Raise e, g)
    end.
Proof.
  unfold Server.find_with_vector, Server.eval, mbind, Server.handler_bind.
  by destruct (_ascii_to_vector query).
Qed.

Lemma find_with_text_unfold g name query count :
  Server.find_with_text name query count g =
    match text_embedding (Server.model g) query with
    | Return vector => Server.find_vector name vector count g
    | Raise e => (Raise e, g)
    end.
Proof.
  unfold Server.find_with_text, text_embedding, Server.global_model, Server.eval,
    mbind, Server.handler_bind, outcome_bind.
  destruct (preprocess_text (Server.model g) query) as [text_data|]; [|done].
  destruct (encode_text (Server.model g) text_data) as [tensor|]; [|done].
  by destruct (detach_numpy tensor).
Qed.

Lemma find_with_image_unfold g name query count :
  Server.find_with_image name query count g =
    match image_embedding (Server.model g) query with
    | Return vector => Server.find_vector name vector count g
    | Raise e => (Raise e, g)
    end.
Proof.
  unfold Server.find_with_image, image_embedding, Server.global_model, Server.eval,
    mbind, Server.handler_bind, outcome_bind.
  destruct (preprocess_image (Server.model g) query) as [image_data|]; [|done].
  destruct (encode_image (Server.model g) image_data) as [tensor|]; [|done].
  by destruct (detach_numpy tensor).
Qed.

(** C1, as the script has it: on a name that is not in the registry every
    call raises and returns nothing.  [find_vector] raises the
    [AssertionError] of its membership assertion, [size] and [dimensions]
    the [KeyError] of the registry subscript.  The three [find_with_]
    functions encode the query before [find_vector] is entered: they raise
    what the encoding raises when it fails, and the [AssertionError]
    otherwise. *)
Theorem unknown_dataset_fails g name :
  Server.datasets g !! name = None ->
  (forall vector count,
     Server.find_vector name vector count g = (Raise AssertionError, g))
  /\ Server.size name g = (Raise (KeyError name), g)
  /\ Server.dimensions name g = (Raise (KeyError name), g)
  /\ (forall query count,
        Server.find_with_vector name query count g =
          (fails_before_search (_ascii_to_vector query), g))
  /\ (forall query count,
        Server.find_with_text name query count g =
          (fails_before_search (text_embedding (Server.model g) query), g))
  /\ (forall query count,
        Server.find_with_image name query count g =
          (fails_before_search (image_embedding (Server.model g) query), g)).
Proof.
  intros Hname. split_and!.
  - intros. by apply find_vector_unknown.
  - unfold Server.size, Server.global_datasets, Server.eval, mbind,
      Server.handler_bind, dict_getitem. simpl. by rewrite Hname.
  - unfold Server.dimensions, Server.global_datasets, Server.eval, mbind,
      Server.handler_bind, dict_getitem. simpl. by rewrite Hname.
  - intros query count. rewrite find_with_vector_unfold.
    destruct (_ascii_to_vector query); simpl; [by apply find_vector_unknown|done].
  - intros query count. rewrite find_with_text_unfold.
    destruct (text_embedding _ query); simpl; [by apply find_vector_unknown|done].
  - intros query count. rewrite find_with_image_unfold.
    destruct (image_embedding _ query); simpl; [by apply find_vector_unknown|done].
Qed.

End UnknownDataset.

(** [nope] is no dataset of the registry: [size] raises the [KeyError]. *)
Lemma unknown_dataset_fails_witness :
  Server.size (F := Sample.foreign) "nope"
    (Sample.serving Sample.fs_agree)
  = (Raise (KeyError "nope"), Sample.serving Sample.fs_agree).
Proof.
  apply (unknown_dataset_fails (F := Sample.foreign) (L := Sample.libraries)
           (Sample.serving Sample.fs_agree) "nope").
  vm_compute. reflexivity.
Defined.

(** C1 as it is stated fails: with a query that does not decode, or an
    image that cannot be read, the call on an unknown name ends with the
    encoder's exception, not with the failure of the dataset check. *)
Lemma unknown_dataset_encoder_raises_first :
  Server.datasets (Sample.serving Sample.fs_agree) !! "nope" = None
  /\ (Server.find_with_vector (L := Sample.libraries) "nope" Sample.not_ascii 10
        (Sample.serving Sample.fs_agree)).1
     = Raise (LibraryError "malformed vector")
  /\ (Server.find_with_image (F := Sample.foreign) "nope" [] 10
        (Sample.serving Sample.fs_agree)).1
     = Raise (LibraryError "cannot identify image").
Proof. split_and!; vm_compute; reflexivity. Qed.

(** ** From labels to URIs *)

Section Labels.
Context {F : Foreign} {L : Libraries}.
Implicit Types (g : Server.Globals) (D : Dataset) (ls : list Z) (r : list string).

(** Once the index has answered, the result of [find_vector] is the
    comprehension over the labels it found. *)
Lemma find_vector_found g name D vector count found :
  Server.datasets g !! name = Some D ->
  search (index D) (flatten vector) count = Return found ->
  Server.find_vector name vector count g =
    (comprehension (list_getitem (uris D)) (data (labels found)), g).
Proof.
  intros Hname Hsearch. rewrite (find_vector_known g name D); [|done].
  by rewrite Hsearch.
Qed.

(** Subscripting one list by a list of indices: either every index is
    within [-len, len) and the comprehension returns, or one is not and it
    raises [IndexError]. *)
Lemma comprehension_getitem {A} (l : list A) ls :
  (Forall (fun i => (- Z.of_nat (length l) <= i < Z.of_nat (length l))%Z) ls
   /\ exists xs, comprehension (list_getitem l) ls = Return xs)
  \/ (Exists (fun i => (i < - Z.of_nat (length l) \/ Z.of_nat (length l) <= i)%Z) ls
      /\ comprehension (list_getitem l) ls = Raise IndexError).
Proof.
  destruct (comprehension (list_getitem l) ls) as [xs|e] eqn:Hc.
  - left. split; [|by exists xs].
    apply comprehension_Return in Hc.
    induction Hc as [|i x ls xs Hi _ IH]; constructor; [|done].
    by eapply list_getitem_Return.
  - right. apply comprehension_Raise in Hc as (pre & i & post & -> & _ & Hi).
    apply list_getitem_Raise in Hi as [-> Hi]. split; [|done].
    apply Exists_app. right. by apply Exists_cons_hd.
Qed.

Lemma comprehension_getitem_in_range {A} (l : list A) ls :
  Forall (fun i => (- Z.of_nat (length l) <= i < Z.of_nat (length l))%Z) ls ->
  exists xs, comprehension (list_getitem l) ls = Return xs.
Proof.
  intros Hin. destruct (comprehension_getitem l ls) as [[_ ?]|[Hout _]]; [done|].
  exfalso. apply Exists_exists in Hout as (i & Hi & Hout).
  rewrite Forall_forall in Hin. specialize (Hin i Hi). lia.
Qed.

Lemma comprehension_getitem_out {A} (l : list A) ls :
  Exists (fun i => (i < - Z.of_nat (length l) \/ Z.of_nat (length l) <= i)%Z) ls ->
  comprehension (list_getitem l) ls = Raise IndexError.
Proof.
  intros Hout. destruct (comprehension_getitem l ls) as [[Hin _]|[_ ?]]; [|done].
  exfalso. apply Exists_exists in Hout as (i & Hi & Hout).
  rewrite Forall_forall in Hin. specialize (Hin i Hi). lia.
Qed.

Lemma list_getitem_nonneg_inv {A} (l : list A) i x :
  (0 <= i)%Z -> list_getitem l i = Return x -> l !! Z.to_nat i = Some x.
Proof.
  intros Hi Hx. pose proof (list_getitem_Return l i x Hx) as Hrange.
  destruct (list_getitem_nonneg l i) as (x' & Hl & Hx'); [lia|]. congruence.
Qed.

Lemma list_getitem_negative_inv {A} (l : list A) i x :
  (i < 0)%Z -> list_getitem l i = Return x ->
  l !! Z.to_nat (Z.of_nat (length l) + i) = Some x.
Proof.
  intros Hi Hx. pose proof (list_getitem_Return l i x Hx) as Hrange.
  destruct (list_getitem_negative l i) as (x' & Hl & Hx'); [lia|]. congruence.
Qed.

(** C2, as the script has it: every label the index found is used as a
    subscript of [uris].  When all of them are positions of [uris] the
    result holds [uris[label]] for each, in their order; a label outside
    the range of [uris] is not dropped: the call raises [IndexError]. *)
Theorem find_vector_subscripts_uris g name D vector count found :
  Server.datasets g !! name = Some D ->
  search (index D) (flatten vector) count = Return found ->
  (Forall (fun l => (0 <= l < Z.of_nat (length (uris D)))%Z) (data (labels found)) ->
   exists r, Server.find_vector name vector count g = (Return r, g)
     /\ Forall2 (fun l u => uris D !! Z.to_nat l = Some u) (data (labels found)) r)
  /\ (Exists (fun l => (l < - Z.of_nat (length (uris D))
                        \/ Z.of_nat (length (uris D)) <= l)%Z) (data (labels found)) ->
      Server.find_vector name vector count g = (Raise IndexError, g)).
Proof.
  intros Hname Hsearch. rewrite (find_vector_found g name D vector count found) by done.
  split.
  - intros Hin.
    destruct (comprehension_getitem_in_range (uris D) (data (labels found))) as [r Hr].
    { eapply Forall_impl; [exact Hin|]. simpl. lia. }
    exists r. split; [by rewrite Hr|].
    apply comprehension_Return in Hr.
    apply Forall2_same_length_lookup. split; [by eapply Forall2_length|].
    intros i l u Hl Hu.
    pose proof (Forall_lookup_1 _ _ _ _ Hin Hl) as Hrange. simpl in Hrange.
    apply list_getitem_nonneg_inv; [lia|].
    by eapply (Forall2_lookup_lr _ _ _ i l u Hr).
  - intros Hout. by rewrite comprehension_getitem_out.
Qed.


End Labels.

(** The index of [cc3m] finds the label 0 first: it is a position of the
    two URIs, so the call returns. *)
Lemma find_vector_subscripts_uris_witness :
  exists r,
    Server.find_vector (F := Sample.foreign) "cc3m" Sample.zero_vector 1
      (Sample.serving Sample.fs_differ) = (Return r, Sample.serving Sample.fs_differ).
Proof.
  destruct (find_vector_subscripts_uris (F := Sample.foreign)
              (Sample.serving Sample.fs_differ) "cc3m"
              (Sample.loaded 4 4 4 [0; 5; 1]%Z ["c0"; "c1"]) Sample.zero_vector 1
              (Sample.answer [0%Z]))
    as [Hin _].
  - vm_compute. reflexivity.
  - vm_compute. reflexivity.
  - destruct Hin as (r & Hr & _).
    + repeat constructor; vm_compute; congruence.
    + by exists r.
Defined.

(** C2 as it is stated fails: the index of [cc3m] answers with the labels
    0, 5 and 1 for two URIs; the label 5 is not dropped, the call raises. *)
Lemma find_vector_keeps_no_partial_result :
  (x ← search (Sample.exhaustive 4 [0; 5; 1]%Z) (flatten Sample.zero_vector) 3;
   Return (data (labels x))) = Return [0; 5; 1]%Z
  /\ Server.datasets (Sample.serving Sample.fs_differ) !! "cc3m"
     = Some (Sample.loaded 4 4 4 [0; 5; 1]%Z ["c0"; "c1"])
  /\ Server.find_vector (F := Sample.foreign) "cc3m" Sample.zero_vector 3
       (Sample.serving Sample.fs_differ)
     = (Raise IndexError, Sample.serving Sample.fs_differ).
Proof. split_and!; vm_compute; reflexivity. Qed.



(** ** Length and order of the result *)

Section Results.
Context {F : Foreign} {L : Libraries}.
Implicit Types (g : Server.Globals) (D : Dataset) (r : list string).

Lemma size_known g name D :
  Server.datasets g !! name = Some D ->
  Server.size name g = (Return (Z.of_nat (index_len (index D))), g).
Proof.
  intros Hname. unfold Server.size, Server.global_datasets, Server.eval, mbind,
    Server.handler_bind, dict_getitem. simpl. by rewrite Hname.
Qed.

Lemma dimensions_known g name D :
  Server.datasets g !! name = Some D ->
  Server.dimensions name g = (Return (ndim (index D)), g).
Proof.
  intros Hname. unfold Server.dimensions, Server.global_datasets, Server.eval, mbind,
    Server.handler_bind, dict_getitem. simpl. by rewrite Hname.
Qed.

(** C3, as the script has it: [find_vector] returns one URI for each
    label of the answer of the index, no more and no fewer, whenever those
    labels are positions of [uris]: exactly [count] URIs when the answer
    holds [count] labels, fewer when the answer is shorter, as it is when
    the index holds fewer than [count] vectors.  Nothing is padded, nothing
    is cut and a short answer raises nothing. *)
Theorem find_vector_length g name D vector count found :
  Server.datasets g !! name = Some D ->
  search (index D) (flatten vector) count = Return found ->
  Forall (fun l => (0 <= l < Z.of_nat (length (uris D)))%Z) (data (labels found)) ->
  exists r,
    Server.find_vector name vector count g = (Return r, g)
    /\ length r = length (data (labels found))
    /\ (length (data (labels found)) = Z.to_nat count -> length r = Z.to_nat count)
    /\ (length (data (labels found)) < Z.to_nat count -> length r < Z.to_nat count).
Proof.
  intros Hname Hsearch Hrange.
  destruct (comprehension_getitem_in_range (uris D) (data (labels found))) as [r Hr].
  { eapply Forall_impl; [exact Hrange|]. simpl. lia. }
  exists r. rewrite (find_vector_found g name D vector count found), Hr by done.
  apply comprehension_length in Hr. split_and!; [done|done|lia|lia].
Qed.

Lemma StronglySorted_lookup_lt {A} (R : A -> A -> Prop) (l : list A) i j x y :
  StronglySorted R l -> (i < j)%nat -> l !! i = Some x -> l !! j = Some y -> R x y.
Proof.
  intros Hsorted. revert i j. induction Hsorted as [|a l Hl IH Hall]; intros i j Hij Hi Hj.
  - by rewrite lookup_nil in Hi.
  - destruct j as [|j]; [lia|]. simpl in Hj. destruct i as [|i]; simpl in Hi.
    + injection Hi as <-. by eapply (Forall_lookup_1 _ _ _ _ Hall).
    + eapply (IH i j); [lia|done|done].
Qed.

(** C7: the comprehension keeps the order of the (label, distance) list
    the index answered with: the URI at each position of the result is the
    URI of the pair at that position, so when the index lists its matches
    nearest first the URIs come in that order, by non-increasing
    similarity. *)
Theorem find_vector_keeps_order (closer : scalar -> scalar -> Prop)
    g name D vector count found r :
  Server.datasets g !! name = Some D ->
  search (index D) (flatten vector) count = Return found ->
  nearest_first closer found ->
  Server.find_vector name vector count g = (Return r, g) ->
  Forall2 (fun p u => list_getitem (uris D) p.1 = Return u) (pairs found) r
  /\ (forall i j u u', (i < j)%nat -> r !! i = Some u -> r !! j = Some u' ->
        exists l d l' d',
          pairs found !! i = Some (l, d) /\ pairs found !! j = Some (l', d')
          /\ list_getitem (uris D) l = Return u
          /\ list_getitem (uris D) l' = Return u'
          /\ closer d d').
Proof.
  intros Hname Hsearch [Hlen Hsorted].
  rewrite (find_vector_found g name D vector count found) by done.
  intros [= Hr]. apply comprehension_Return in Hr.
  assert (Hpairs : Forall2 (fun p u => list_getitem (uris D) p.1 = Return u)
                     (pairs found) r).
  { apply Forall2_same_length_lookup. split.
    - unfold pairs. rewrite length_zip, Hlen, Nat.min_id. by eapply Forall2_length.
    - intros i [l d] u Hp Hu. unfold pairs in Hp.
      apply lookup_zip_Some in Hp as [Hl _]. simpl.
      by eapply (Forall2_lookup_lr _ _ _ i l u Hr). }
  split; [done|].
  intros i j u u' Hij Hu Hu'.
  destruct (Forall2_lookup_r _ _ _ i u Hpairs Hu) as ([l d] & Hp & Hget).
  destruct (Forall2_lookup_r _ _ _ j u' Hpairs Hu') as ([l' d'] & Hp' & Hget').
  exists l, d, l', d'. split_and!; [done..|].
  unfold pairs in Hp, Hp'.
  apply lookup_zip_Some in Hp as [_ Hd]. apply lookup_zip_Some in Hp' as [_ Hd'].
  by eapply (StronglySorted_lookup_lt closer _ i j).
Qed.

End Results.

(** [cc3m] holds two vectors: a search for one result is answered with one
    label and returns one URI. *)
Lemma find_vector_length_witness :
  exists r,
    Server.find_vector (F := Sample.foreign) "cc3m" Sample.zero_vector 1
      (Sample.serving Sample.fs_agree) = (Return r, Sample.serving Sample.fs_agree)
    /\ length r = 1
    /\ (1 = Z.to_nat 1 -> length r = Z.to_nat 1)
    /\ (1 < Z.to_nat 1 -> length r < Z.to_nat 1).
Proof.
  apply (find_vector_length (F := Sample.foreign) (Sample.serving Sample.fs_agree)
           "cc3m" (Sample.loaded 2 4 4 [0; 1]%Z ["c0"; "c1"]) Sample.zero_vector 1
           (Sample.answer [0%Z])).
  - vm_compute. reflexivity.
  - vm_compute. reflexivity.
  - repeat constructor; simpl; lia.
Defined.

(** C3 as it is stated fails: [unsplash25k] holds three vectors and three
    URIs, and its index, an approximate one, answers a search for two
    results with one label.  The call for [count = 2 <= size = 3] returns
    one URI. *)
Lemma find_vector_shorter_answer :
  Server.startup (L := Sample.approximate_libraries 1) Sample.fs_agree
  = Return (Sample.glancing 1 Sample.fs_agree)
  /\ Server.datasets (Sample.glancing 1 Sample.fs_agree) !! "unsplash25k"
     = Some (Sample.glanced 1 3 4 4 [0; 1; 2]%Z ["u0"; "u1"; "u2"])
  /\ aligned (Sample.glanced 1 3 4 4 [0; 1; 2]%Z ["u0"; "u1"; "u2"])
  /\ Server.size (F := Sample.foreign) "unsplash25k" (Sample.glancing 1 Sample.fs_agree)
     = (Return 3%Z, Sample.glancing 1 Sample.fs_agree)
  /\ Server.find_vector (F := Sample.foreign) "unsplash25k" Sample.zero_vector 2
       (Sample.glancing 1 Sample.fs_agree)
     = (Return ["u0"], Sample.glancing 1 Sample.fs_agree).
Proof. split_and!; vm_compute; reflexivity. Qed.

(** The two matches of [cc3m] come at distances 0 and 1; so do their URIs. *)
Lemma find_vector_keeps_order_witness :
  Forall2 (fun p u => list_getitem ["c0"; "c1"] p.1 = Return u)
    (pairs (F := Sample.foreign) (Sample.answer [0; 1]%Z)) ["c0"; "c1"].
Proof.
  apply (find_vector_keeps_order (F := Sample.foreign) Z.le
           (Sample.serving Sample.fs_agree) "cc3m"
           (Sample.loaded 2 4 4 [0; 1]%Z ["c0"; "c1"]) Sample.zero_vector 2
           (Sample.answer [0; 1]%Z) ["c0"; "c1"]).
  - vm_compute. reflexivity.
  - vm_compute. reflexivity.
  - split; [reflexivity|]. simpl. repeat constructor; lia.
  - vm_compute. reflexivity.
Defined.

(** ** Opening the datasets *)

Section Opening.
Context {F : Foreign} {L : Libraries}.
Implicit Types (fs : gmap string file) (g : Server.Globals) (D : Dataset).

(** [open_dataset] returns exactly when its four steps do, with what they
    returned. *)
Lemma open_dataset_Return fs dir D :
  Server.open_dataset fs dir = Return D <->
  exists n text,
    load_matrix fs (path_join dir "images.fbin") = Return (vectors D)
    /\ shape_at (vectors D) 1 = Return n
    /\ Index_new fs n Cos (path_join dir "images.usearch") = Return (index D)
    /\ fs !! path_join dir "images.txt" = Some (TextFile text)
    /\ uris D = splitlines text.
Proof.
  unfold Server.open_dataset, Server.open_read, mbind, outcome_bind. split.
  - destruct (load_matrix fs _) as [v|] eqn:Hv; [|done].
    destruct (shape_at v 1) as [n|] eqn:Hn; [|done].
    destruct (Index_new fs n Cos _) as [i|] eqn:Hi; [|done].
    destruct (fs !! path_join dir "images.txt") as [[| |text]|] eqn:Ht; try done.
    intros [= <-]. by exists n, text.
  - intros (n & text & Hv & Hn & Hi & Ht & Hu).
    rewrite Hv, Hn, Hi, Ht. destruct D as [i u v]; simpl in *. by subst.
Qed.

(** The registry holds, under the two names of line 40, what
    [open_dataset] returned for them. *)
Lemma startup_lookup fs g name D :
  Server.startup fs = Return g ->
  Server.datasets g !! name = Some D ->
  (name = "unsplash25k" \/ name = "cc3m") /\ Server.open_dataset fs name = Return D.
Proof.
  unfold Server.startup, mbind, outcome_bind. simpl.
  destruct (get_model _) as [m|]; [|done].
  unfold mbind, outcome_bind.
  destruct (Server.open_dataset fs "unsplash25k") as [D1|] eqn:H1; [|done].
  destruct (Server.open_dataset fs "cc3m") as [D2|] eqn:H2; [|done].
  intros [= <-]. simpl. intros Hlookup.
  apply lookup_insert_Some in Hlookup as [[<- <-]|[_ Hlookup]]; [auto|].
  apply lookup_insert_Some in Hlookup as [[<- <-]|[_ Hlookup]]; [auto|].
  by rewrite lookup_empty in Hlookup.
Qed.

(** C4, as the script has it: for every dataset of the registry [size] is
    [len(index)].  It is the length of [uris] exactly when the dataset is
    aligned, and the number of rows of [vectors] exactly when the matrix has
    as many rows as the index has entries; nothing makes either so. *)
Theorem size_is_index_len g name D :
  Server.datasets g !! name = Some D ->
  Server.size name g = (Return (Z.of_nat (index_len (index D))), g)
  /\ (Server.size name g = (Return (Z.of_nat (length (uris D))), g) <-> aligned D)
  /\ (forall n, rows (vectors D) = Some n ->
        (Server.size name g = (Return (Z.of_nat n), g) <-> n = index_len (index D))).
Proof.
  intros Hname. rewrite (size_known g name D) by done. unfold aligned. split_and!.
  - done.
  - split; [intros [= Heq]; lia|intros ->; done].
  - intros n _. split; [intros [= Heq]; lia|intros ->; done].
Qed.

(** C5, as the script has it: [open_dataset] checks nothing itself.  It
    loads the matrix, reads its column count, constructs the index with
    that count and opens the URI file, in this order, and raises what the
    first failing step raises; for a missing URI file that is the
    [FileNotFoundError] of [open], once the earlier steps have returned.
    When all steps return, it returns the dataset made of their values,
    with one URI per line. *)
Theorem open_dataset_steps fs dir :
  (forall e, load_matrix fs (path_join dir "images.fbin") = Raise e ->
     Server.open_dataset fs dir = Raise e)
  /\ (forall v e, load_matrix fs (path_join dir "images.fbin") = Return v ->
        shape_at v 1 = Raise e ->
        Server.open_dataset fs dir = Raise e)
  /\ (forall v n e, load_matrix fs (path_join dir "images.fbin") = Return v ->
        shape_at v 1 = Return n ->
        Index_new fs n Cos (path_join dir "images.usearch") = Raise e ->
        Server.open_dataset fs dir = Raise e)
  /\ (forall v n i, load_matrix fs (path_join dir "images.fbin") = Return v ->
        shape_at v 1 = Return n ->
        Index_new fs n Cos (path_join dir "images.usearch") = Return i ->
        fs !! path_join dir "images.txt" = None ->
        Server.open_dataset fs dir
        = Raise (FileNotFoundError (path_join dir "images.txt")))
  /\ (forall v n i text, load_matrix fs (path_join dir "images.fbin") = Return v ->
        shape_at v 1 = Return n ->
        Index_new fs n Cos (path_join dir "images.usearch") = Return i ->
        fs !! path_join dir "images.txt" = Some (TextFile text) ->
        Server.open_dataset fs dir
        = Return {| index := i; uris := splitlines text; vectors := v |}).
Proof.
  unfold Server.open_dataset, Server.open_read, mbind, outcome_bind. split_and!.
  - by intros e ->.
  - by intros v e -> ->.
  - by intros v n e -> -> ->.
  - by intros v n i -> -> -> ->.
  - by intros v n i text -> -> -> ->.
Qed.

(** C6, as the script has it: a dataset that [open_dataset] returns holds
    the matrix, the index and the lines that the three loading steps
    returned, and it is aligned exactly when the URI file has as many lines
    as the loaded index has entries.  After startup every dataset of the
    registry is the one [open_dataset] returned for its name, and it still
    is after any sequence of remote calls: an aligned dataset stays
    aligned. *)
Theorem open_dataset_then_immutable :
  (forall fs dir D, Server.open_dataset fs dir = Return D ->
     exists n text,
       load_matrix fs (path_join dir "images.fbin") = Return (vectors D)
       /\ Index_new fs n Cos (path_join dir "images.usearch") = Return (index D)
       /\ fs !! path_join dir "images.txt" = Some (TextFile text)
       /\ uris D = splitlines text
       /\ (aligned D <-> length (splitlines text) = index_len (index D)))
  /\ (forall fs g cs name D, Server.startup fs = Return g ->
        Server.datasets (Server.run cs g).2 !! name = Some D ->
        Server.open_dataset fs name = Return D)
  /\ (forall g cs name D, Server.datasets g !! name = Some D -> aligned D ->
        Server.datasets (Server.run cs g).2 !! name = Some D /\ aligned D).
Proof.
  split_and!.
  - intros fs dir D HD. apply open_dataset_Return in HD
      as (n & text & Hv & Hn & Hi & Ht & Hu).
    exists n, text. split_and!; [done..|]. unfold aligned. by rewrite Hu.
  - intros fs g cs name D Hstart. rewrite run_frame. simpl. intros Hname.
    by destruct (startup_lookup fs g name D).
  - intros g cs name D Hname Haligned. by rewrite run_frame.
Qed.

End Opening.

(** In the registry made of [fs_agree], [size] of [cc3m] is the two entries
    of its index. *)
Lemma size_is_index_len_witness :
  Server.size (F := Sample.foreign) "cc3m" (Sample.serving Sample.fs_agree)
  = (Return 2%Z, Sample.serving Sample.fs_agree).
Proof.
  destruct (size_is_index_len (F := Sample.foreign) (Sample.serving Sample.fs_agree)
              "cc3m" (Sample.loaded 2 4 4 [0; 1]%Z ["c0"; "c1"])) as [Hsize _].
  - vm_compute. reflexivity.
  - exact Hsize.
Defined.

(** C4 as it is stated fails: started on a directory whose index file
    holds three entries for two URI lines and four vectors, the registry
    holds a dataset whose [size] is 3, whose [uris] has length 2 and whose
    [vectors] has 4 rows. *)
Lemma size_differs_from_uris_and_rows :
  Server.startup (L := Sample.libraries) Sample.fs_differ
  = Return (Sample.serving Sample.fs_differ)
  /\ Server.datasets (Sample.serving Sample.fs_differ) !! "cc3m"
     = Some (Sample.loaded 4 4 4 [0; 5; 1]%Z ["c0"; "c1"])
  /\ (Server.size (F := Sample.foreign) "cc3m" (Sample.serving Sample.fs_differ)).1
     = Return 3%Z
  /\ length (uris (Sample.loaded 4 4 4 [0; 5; 1]%Z ["c0"; "c1"])) = 2
  /\ rows (vectors (Sample.loaded 4 4 4 [0; 5; 1]%Z ["c0"; "c1"])) = Some 4.
Proof. split_and!; vm_compute; reflexivity. Qed.

(** C5 as it is stated fails: with loaders that do not raise for it, a
    directory without its index file opens, to a dataset with an empty
    index, and so does a directory whose index was persisted for 8
    dimensions beside a matrix of 4 columns. *)
Lemma open_dataset_checks_nothing :
  Sample.fs_broken !! path_join "cc3m" "images.usearch" = None
  /\ Server.open_dataset (L := Sample.libraries) Sample.fs_broken "cc3m"
     = Return (Sample.loaded 2 4 4 [] ["c0"; "c1"])
  /\ Sample.fs_broken !! path_join "unsplash25k" "images.usearch"
     = Some (IndexFile (F := Sample.foreign) 8 [0; 1; 2]%Z)
  /\ Sample.fs_broken !! path_join "unsplash25k" "images.fbin"
     = Some (MatrixFile (F := Sample.foreign) (Sample.zeros 3 4))
  /\ Server.open_dataset (L := Sample.libraries) Sample.fs_broken "unsplash25k"
     = Return (Sample.loaded 3 4 8 [0; 1; 2]%Z ["u0"; "u1"; "u2"]).
Proof. split_and!; vm_compute; reflexivity. Qed.

(** C6 as it is stated fails: [open_dataset] returns a dataset with two
    URIs and three indexed vectors. *)
Lemma open_dataset_not_aligned :
  Server.open_dataset (L := Sample.libraries) Sample.fs_differ "cc3m"
  = Return (Sample.loaded 4 4 4 [0; 5; 1]%Z ["c0"; "c1"])
  /\ ~ aligned (Sample.loaded 4 4 4 [0; 5; 1]%Z ["c0"; "c1"]).
Proof. split; [vm_compute; reflexivity|]. unfold aligned. simpl. lia. Qed.

(** ** Further properties of the script *)

Section Further.
Context {F : Foreign} {L : Libraries}.
Implicit Types (fs : gmap string file) (g : Server.Globals) (D : Dataset).

(** X1: once the module has started, the registry holds exactly the two
    names of line 40. *)
Theorem startup_registry_names fs g :
  Server.startup fs = Return g ->
  dom (Server.datasets g) = ({["unsplash25k"; "cc3m"]} : gset string).
Proof.
  unfold Server.startup, mbind, outcome_bind. simpl.
  destruct (get_model _) as [m|]; [|done].
  unfold mbind, outcome_bind.
  destruct (Server.open_dataset fs "unsplash25k") as [D1|]; [|done].
  destruct (Server.open_dataset fs "cc3m") as [D2|]; [|done].
  intros [= <-]. simpl. rewrite !dom_insert_L, dom_empty_L.
  apply set_eq. intros x. set_unfold. tauto.
Qed.

(** X2: startup is all or nothing: when loading the model or opening either
    directory raises, the module raises the same and no registry is left
    to serve from. *)
Theorem startup_all_or_nothing fs :
  (forall e, get_model "unum-cloud/uform-vl-multilingual" = Raise e ->
     Server.startup fs = Raise e)
  /\ (forall m e, get_model "unum-cloud/uform-vl-multilingual" = Return m ->
        Server.open_dataset fs "unsplash25k" = Raise e ->
        Server.startup fs = Raise e)
  /\ (forall m D e, get_model "unum-cloud/uform-vl-multilingual" = Return m ->
        Server.open_dataset fs "unsplash25k" = Return D ->
        Server.open_dataset fs "cc3m" = Raise e ->
        Server.startup fs = Raise e).
Proof.
  unfold Server.startup, mbind, outcome_bind. simpl. unfold mbind, outcome_bind.
  split_and!.
  - by intros e ->.
  - by intros m e -> ->.
  - by intros m D e -> -> ->.
Qed.

(** X3: [dimensions] is the column count of the dataset's matrix whenever
    the constructor gave the index the [ndim] it was called with, which is
    that column count. *)
Theorem dimensions_is_column_count fs g name D :
  Server.startup fs = Return g ->
  Server.datasets g !! name = Some D ->
  (forall n i, shape_at (vectors D) 1 = Return n ->
     Index_new fs n Cos (path_join name "images.usearch") = Return i -> ndim i = n) ->
  exists n, shape_at (vectors D) 1 = Return n
            /\ Server.dimensions name g = (Return n, g).
Proof.
  intros Hstart Hname Hkeeps.
  destruct (startup_lookup fs g name D Hstart Hname) as [_ Hopen].
  apply open_dataset_Return in Hopen as (n & text & _ & Hn & Hi & _).
  exists n. split; [done|].
  rewrite (dimensions_known g name D) by done. by rewrite (Hkeeps n (index D)).
Qed.

(** X4: the names the page offers, [unsplash-25k] and [cc-3m], are not
    names of the registry: [size] raises [KeyError] for them. *)
Theorem page_dataset_names_unknown fs g :
  Server.startup fs = Return g ->
  Server.size "unsplash-25k" g = (Raise (KeyError "unsplash-25k"), g)
  /\ Server.size "cc-3m" g = (Raise (KeyError "cc-3m"), g).
Proof.
  intros Hstart. pose proof (startup_registry_names fs g Hstart) as Hdom.
  assert (forall name, name ∉ ({["unsplash25k"; "cc3m"]} : gset string) ->
            Server.size name g = (Raise (KeyError name), g)) as Hsize.
  { intros name Hnot. rewrite <- Hdom in Hnot. apply not_elem_of_dom in Hnot.
    unfold Server.size, Server.global_datasets, Server.eval, mbind,
      Server.handler_bind, dict_getitem. simpl. by rewrite Hnot. }
  split; apply Hsize; set_unfold; intros [?|?]; discriminate.
Qed.

Lemma list_getitem_elem_of {A} (l : list A) i x :
  list_getitem l i = Return x -> x ∈ l.
Proof.
  intros Hx. destruct (decide (i < 0)%Z).
  - apply list_getitem_negative_inv in Hx; [|done]. by eapply list_elem_of_lookup_2.
  - apply list_getitem_nonneg_inv in Hx; [|lia]. by eapply list_elem_of_lookup_2.
Qed.

(** X5: every URI that [find_vector] returns is an element of the
    dataset's [uris], and there is one per label the index found. *)
Theorem find_vector_draws_from_uris g name D vector count r :
  Server.datasets g !! name = Some D ->
  Server.find_vector name vector count g = (Return r, g) ->
  Forall (fun u => u ∈ uris D) r
  /\ exists found, search (index D) (flatten vector) count = Return found
                   /\ length r = length (data (labels found)).
Proof.
  intros Hname. rewrite (find_vector_known g name D) by done.
  unfold mbind, outcome_bind.
  destruct (search (index D) (flatten vector) count) as [found|]; [|done].
  intros [= Hr]. split.
  - apply comprehension_Return in Hr.
    induction Hr as [|l u ls r Hl _ IH]; constructor; [|done].
    by eapply list_getitem_elem_of.
  - exists found. split; [done|]. by eapply comprehension_length.
Qed.

End Further.

(** The stand-in constructor gave the index of [cc3m] the four dimensions
    of its matrix. *)
Lemma dimensions_is_column_count_witness :
  exists n, shape_at (Sample.zeros 2 4) 1 = Return n
            /\ Server.dimensions (F := Sample.foreign) "cc3m"
                 (Sample.serving Sample.fs_agree)
               = (Return n, Sample.serving Sample.fs_agree).
Proof.
  apply (dimensions_is_column_count (L := Sample.libraries) Sample.fs_agree
           (Sample.serving Sample.fs_agree) "cc3m"
           (Sample.loaded 2 4 4 [0; 1]%Z ["c0"; "c1"])).
  - vm_compute. reflexivity.
  - vm_compute. reflexivity.
  - intros n i Hn Hi. vm_compute in Hn, Hi.
    injection Hn as <-. injection Hi as <-. reflexivity.
Defined.

Lemma startup_registry_names_witness :
  dom (Server.datasets (Sample.serving Sample.fs_agree))
  = ({["unsplash25k"; "cc3m"]} : gset string).
Proof.
  apply (startup_registry_names (L := Sample.libraries) Sample.fs_agree).
  vm_compute. reflexivity.
Defined.

Lemma page_dataset_names_unknown_witness :
  Server.size (F := Sample.foreign) "cc-3m" (Sample.serving Sample.fs_agree)
  = (Raise (KeyError "cc-3m"), Sample.serving Sample.fs_agree).
Proof.
  apply (page_dataset_names_unknown (L := Sample.libraries) Sample.fs_agree).
  vm_compute. reflexivity.
Defined.

Lemma find_vector_draws_from_uris_witness :
  Forall (fun u => u ∈ ["c0"; "c1"]) ["c0"; "c1"].
Proof.
  apply (find_vector_draws_from_uris (F := Sample.foreign)
           (Sample.serving Sample.fs_agree) "cc3m"
           (Sample.loaded 2 4 4 [0; 1]%Z ["c0"; "c1"]) Sample.zero_vector 2).
  - vm_compute. reflexivity.
  - vm_compute. reflexivity.
Defined.

(** ** The URI file, line by line *)

Section Lines.

Lemma append_empty_r (s : string) : s +:+ EmptyString = s.
Proof.
  induction s as [|c s IH]; [done|].
  change (String c s +:+ EmptyString) with (String c (s +:+ EmptyString)).
  by rewrite IH.
Qed.

Lemma append_cons_assoc (s : string) (c : Ascii.ascii) (t : string) :
  (s +:+ String c EmptyString) +:+ t = s +:+ String c t.
Proof.
  induction s as [|c' s IH]; [done|].
  change ((String c' s +:+ String c EmptyString) +:+ t)
    with (String c' ((s +:+ String c EmptyString) +:+ t)).
  by rewrite IH.
Qed.

Lemma no_break_snoc (s : string) (c : Ascii.ascii) :
  no_break s -> is_linebreak c = false -> no_break (s +:+ String c EmptyString).
Proof.
  intros Hs Hc. induction s as [|c' s IH]; [done|].
  destruct Hs as [Hc' Hs].
  change (no_break (String c' (s +:+ String c EmptyString))).
  split; [done|]. by apply IH.
Qed.

(** Whatever was read so far, the lines cut from the rest hold no
    line-break character. *)
Lemma splitlines_from_no_break (s cur : string) (after_cr : bool) :
  no_break cur -> Forall no_break (splitlines_from s cur after_cr).
Proof.
  revert cur after_cr. induction s as [|c s IH]; intros cur after_cr Hcur; simpl.
  - destruct (decide (cur = EmptyString)); [constructor|]. by repeat constructor.
  - destruct (after_cr && is_lf c)%bool; [by apply IH|].
    destruct (is_linebreak c) eqn:Hc.
    + constructor; [done|]. by apply IH.
    + apply IH. by apply no_break_snoc.
Qed.

(** A line without line breaks is read whole. *)
Lemma splitlines_from_line (l s cur : string) :
  no_break l ->
  splitlines_from (l +:+ s) cur false = splitlines_from s (cur +:+ l) false.
Proof.
  revert cur. induction l as [|c l IH]; intros cur Hl.
  - by rewrite append_empty_r.
  - destruct Hl as [Hc Hl]. rewrite <- append_cons_assoc, <- IH by done.
    change (String c l +:+ s) with (String c (l +:+ s)).
    cbn [splitlines_from andb]. by rewrite Hc.
Qed.

Lemma line_feed_breaks :
  is_linebreak (Ascii.ascii_of_N 10) = true /\ is_cr (Ascii.ascii_of_N 10) = false.
Proof. split; vm_compute; reflexivity. Qed.

Lemma splitlines_unlines (lines : list string) :
  Forall no_break lines -> splitlines (unlines lines) = lines.
Proof.
  unfold splitlines. induction 1 as [|l lines Hl _ IH]; [done|].
  cbn [unlines]. rewrite splitlines_from_line by done.
  change (EmptyString +:+ l) with l.
  destruct line_feed_breaks as [Hbreak Hcr].
  cbn [splitlines_from andb]. by rewrite Hbreak, Hcr, IH.
Qed.

End Lines.

Section UriFile.
Context {F : Foreign} {L : Libraries}.
Implicit Types (fs : gmap string file) (D : Dataset).

(** X6: a URI file written one URI per line, each line ended by a line
    feed, is read back as the URIs written, label by label, when the URIs
    are made of code points below 256 and none holds a character at which
    [splitlines] breaks. *)
Theorem open_dataset_reads_back_uris fs dir D lines :
  Server.open_dataset fs dir = Return D ->
  fs !! path_join dir "images.txt" = Some (TextFile (unlines lines)) ->
  Forall no_break lines ->
  uris D = lines
  /\ forall l u, lines !! l = Some u -> list_getitem (uris D) (Z.of_nat l) = Return u.
Proof.
  intros Hopen Htext Hlines.
  apply open_dataset_Return in Hopen as (n & text & _ & _ & _ & Ht & Hu).
  rewrite Htext in Ht. injection Ht as <-.
  rewrite Hu, splitlines_unlines by done. split; [done|].
  intros l u Hl.
  destruct (list_getitem_nonneg lines (Z.of_nat l)) as (u' & Hu' & ->).
  { pose proof (lookup_lt_Some _ _ _ Hl). lia. }
  rewrite Nat2Z.id in Hu'. congruence.
Qed.

(** X7: no URI of an opened dataset holds a line-break character. *)
Theorem open_dataset_uris_unbroken fs dir D :
  Server.open_dataset fs dir = Return D -> Forall no_break (uris D).
Proof.
  intros Hopen.
  apply open_dataset_Return in Hopen as (n & text & _ & _ & _ & _ & ->).
  by apply splitlines_from_no_break.
Qed.

End UriFile.

(** The URI file of [cc3m] rewritten with a line feed after each of its
    two URIs reads back as the two URIs. *)
Lemma open_dataset_reads_back_uris_witness :
  uris (F := Sample.foreign) (Sample.loaded 2 4 4 [0; 1]%Z ["c0"; "c1"]) = ["c0"; "c1"].
Proof.
  apply (open_dataset_reads_back_uris (L := Sample.libraries)
           (<[path_join "cc3m" "images.txt" :=
                TextFile (F := Sample.foreign) (unlines ["c0"; "c1"])]> Sample.fs_agree)
           "cc3m").
  - vm_compute. reflexivity.
  - vm_compute. reflexivity.
  - repeat constructor; vm_compute; reflexivity.
Defined.

Lemma open_dataset_uris_unbroken_witness :
  Forall no_break (uris (F := Sample.foreign) (Sample.loaded 2 4 4 [0; 1]%Z ["c0"; "c1"])).
Proof.
  apply (open_dataset_uris_unbroken (L := Sample.libraries) Sample.fs_agree "cc3m").
  vm_compute. reflexivity.
Defined.

(** ** How [find_vector] fails *)

Section Failures.
Context {F : Foreign} {L : Libraries}.
Implicit Types (g : Server.Globals) (D : Dataset).

(** X8: [find_vector] raises in three ways and no other: the
    [AssertionError] for a name that is not in the registry; whatever the
    search of the index raises, unchanged; and [IndexError] when the search
    returned a label outside [-len(uris), len(uris)). *)
Theorem find_vector_raises g name vector count e :
  Server.find_vector name vector count g = (Raise e, g) <->
  (Server.datasets g !! name = None /\ e = AssertionError)
  \/ (exists D, Server.datasets g !! name = Some D
                /\ search (index D) (flatten vector) count = Raise e)
  \/ (exists D found, Server.datasets g !! name = Some D
         /\ search (index D) (flatten vector) count = Return found
         /\ e = IndexError
         /\ Exists (fun l => (l < - Z.of_nat (length (uris D))
                              \/ Z.of_nat (length (uris D)) <= l)%Z)
              (data (labels found))).
Proof.
  destruct (Server.datasets g !! name) as [D|] eqn:Hname.
  - rewrite (find_vector_known g name D) by done.
    destruct (search (index D) (flatten vector) count) as [found|e'] eqn:Hsearch.
    + unfold mbind, outcome_bind. split.
      * intros [= Hc]. right. right. exists D, found.
        destruct (comprehension_getitem (uris D) (data (labels found)))
          as [[_ [xs Hxs]]|[Hout Hraise]]; [congruence|].
        split_and!; [done|done|congruence|done].
      * intros [[? _]|[(D' & HD' & Hs)|(D' & found' & HD' & Hs & -> & Hout)]];
          [done|congruence|].
        injection HD' as <-. rewrite Hsearch in Hs. injection Hs as <-.
        by rewrite comprehension_getitem_out.
    + unfold mbind, outcome_bind. split.
      * intros [= <-]. right. left. by exists D.
      * intros [[? _]|[(D' & HD' & Hs)|(D' & found' & HD' & Hs & _)]];
          [done| |]; injection HD' as <-; congruence.
  - rewrite find_vector_unknown by done. split.
    + intros [= <-]. by left.
    + intros [[_ ->]|[(D' & ? & _)|(D' & found' & ? & _)]]; [done..].
Qed.

End Failures.

(** ** The grid of the page *)

Section Grid.
Context (displayable : string -> bool).
Implicit Types (st : Page.canvas) (shown rest : list string) (c : nat).

Lemma length_concat_rows {A} (rows : list (list A)) c :
  Forall (fun r => length r = c) rows -> length (concat rows) = c * length rows.
Proof.
  induction 1 as [|r rows Hr _ IH]; simpl; [lia|].
  rewrite length_app, IH, Hr. lia.
Qed.

Lemma concat_row_of c shown : concat (Page.row_of c shown) = shown.
Proof.
  unfold Page.row_of. rewrite concat_app.
  assert (concat (replicate (c - length shown) ([] : list string)) = []) as ->.
  { induction (c - length shown) as [|k IH]; simpl; [done|exact IH]. }
  rewrite app_nil_r. induction shown as [|x shown IH]; simpl; [done|]. f_equal. exact IH.
Qed.

Lemma concat_rows c (full : list (list string)) :
  concat (concat (Page.row_of c <$> full)) = concat full.
Proof.
  induction full as [|r full IH]; [done|].
  rewrite fmap_cons. cbn [concat]. by rewrite concat_app, concat_row_of, IH.
Qed.

Lemma length_row_of c shown : length shown <= c -> length (Page.row_of c shown) = c.
Proof.
  intros Hle. unfold Page.row_of.
  rewrite length_app, length_fmap, length_replicate. lia.
Qed.

(** A new row takes its first image in its first container, if Streamlit
    can display it. *)
Lemma first_image c x (rows_above : list (list (list string))) :
  0 < c ->
  Page.st_image_in displayable 0 x {| Page.above := rows_above;
                                      Page.cols := Some (replicate c []) |}
  = if displayable x
    then Ok {| Page.above := rows_above; Page.cols := Some (Page.row_of c [x]) |}
    else Error Page.MediaFileStorageError.
Proof.
  intros Hc. destruct c as [|c]; [lia|].
  unfold Page.st_image_in, Page.row_of. simpl.
  by rewrite Nat.sub_0_r.
Qed.

(** A row that is not full takes the next image in its first empty
    container, if Streamlit can display it. *)
Lemma next_image c last x st :
  0 < length last < c ->
  Page.cols st = Some (Page.row_of c last) ->
  Page.st_image_in displayable (Z.of_nat (length last)) x st
  = if displayable x
    then Ok {| Page.above := Page.above st;
               Page.cols := Some (Page.row_of c (last ++ [x])) |}
    else Error Page.MediaFileStorageError.
Proof.
  intros Hlen Hcols. unfold Page.st_image_in. rewrite Hcols.
  assert (Page.row_of c last !! length last = Some []) as Hempty.
  { unfold Page.row_of. rewrite lookup_app_r by (rewrite length_fmap; lia).
    rewrite length_fmap, Nat.sub_diag. apply lookup_replicate_2. lia. }
  destruct (list_getitem_nonneg (Page.row_of c last) (Z.of_nat (length last)))
    as (cell & Hcell & ->).
  { rewrite length_row_of by lia. lia. }
  rewrite Nat2Z.id in Hcell. rewrite Hempty in Hcell. injection Hcell as <-.
  destruct (displayable x); [|done].
  destruct (Z.ltb_spec (Z.of_nat (length last)) 0) as [?|_]; [lia|].
  rewrite Nat2Z.id. do 3 f_equal. unfold Page.row_of.
  rewrite insert_app_r_alt by (rewrite length_fmap; lia).
  rewrite length_fmap, Nat.sub_diag, fmap_app, length_app. simpl.
  rewrite <- (assoc_L (++)). f_equal.
  destruct (c - length last) as [|k] eqn:Hk; [lia|]. simpl.
  do 2 f_equal. lia.
Qed.

(** One turn of the loop: the grid grows by the match when Streamlit can
    display it, and the loop ends with Streamlit's error when it cannot. *)
Lemma place_laid_out c shown x st :
  0 < c ->
  Page.laid_out c shown st ->
  exists st', Page.laid_out c (shown ++ [x]) st'
              /\ Page.place displayable (Z.of_nat c) st (length shown) x
                 = if displayable x then Ok st' else Error Page.MediaFileStorageError.
Proof.
  intros Hc Hgrid. unfold Page.place.
  destruct (decide (Z.of_nat c = 0%Z)) as [?|_]; [lia|].
  destruct Hgrid as [[-> ->]|(full & last & -> & Hfull & Hlast & Habove & Hcols)].
  - simpl. rewrite Z.mod_0_l by lia. simpl. unfold Page.st_columns.
    destruct (Z.leb_spec (Z.of_nat c) 0) as [?|_]; [lia|].
    rewrite Nat2Z.id, (first_image c x) by done.
    eexists. split; [|done]. right. exists [], [x]. simpl. split_and!; auto; lia.
  - rewrite length_app, (length_concat_rows full c) by done.
    destruct (decide (length last = c)) as [Hfullrow|Hpartial].
    + assert ((Z.of_nat (c * length full + length last) `mod` Z.of_nat c)%Z = 0%Z) as ->.
      { rewrite Hfullrow.
        replace (Z.of_nat (c * length full + c))
          with ((Z.of_nat (length full) + 1) * Z.of_nat c)%Z by lia.
        apply Z.mod_mul. lia. }
      simpl. unfold Page.st_columns.
      destruct (Z.leb_spec (Z.of_nat c) 0) as [?|_]; [lia|].
      rewrite Nat2Z.id, (first_image c x) by done.
      eexists. split; [|done]. right. exists (full ++ [last]), [x]. simpl.
      split_and!; [|by apply Forall_app; split; [|repeat constructor]|lia|lia| |done].
      * rewrite concat_app. simpl. by rewrite app_nil_r.
      * unfold Page.page. rewrite Habove, Hcols, fmap_app. done.
    + assert ((Z.of_nat (c * length full + length last) `mod` Z.of_nat c)%Z
              = Z.of_nat (length last)) as ->.
      { replace (Z.of_nat (c * length full + length last))
          with (Z.of_nat (length last) + Z.of_nat (length full) * Z.of_nat c)%Z by lia.
        rewrite Z.mod_add by lia. apply Z.mod_small. lia. }
      destruct (decide (Z.of_nat (length last) = 0%Z)) as [?|_]; [lia|].
      rewrite (next_image c last x st) by (done || lia).
      eexists. split; [|done]. right. exists full, (last ++ [x]). simpl.
      rewrite length_app. simpl. split_and!; [by rewrite (assoc_L (++))|done|lia|lia|done|done].
Qed.

(** The loop keeps the grid over matches that Streamlit can display. *)
Lemma render_from_laid_out c rest shown st :
  0 < c ->
  Forall (fun x => displayable x = true) rest ->
  Page.laid_out c shown st ->
  exists st', Page.render_from displayable (Z.of_nat c) rest (length shown) st = Ok st'
              /\ Page.laid_out c (shown ++ rest) st'.
Proof.
  intros Hc Hrest. revert shown st.
  induction Hrest as [|x rest Hx _ IH]; intros shown st Hgrid; simpl.
  - exists st. by rewrite app_nil_r.
  - destruct (place_laid_out c shown x st Hc Hgrid) as (st1 & Hgrid1 & ->).
    rewrite Hx.
    destruct (IH (shown ++ [x]) st1 Hgrid1) as (st' & Hrun & Hgrid').
    rewrite length_app in Hrun. simpl in Hrun. rewrite Nat.add_1_r in Hrun.
    exists st'. split; [done|]. by rewrite <- (assoc_L (++)) in Hgrid'.
Qed.

(** It ends at the first match that Streamlit cannot display. *)
Lemma render_from_stops c before x after shown st :
  0 < c ->
  Forall (fun x => displayable x = true) before ->
  displayable x = false ->
  Page.laid_out c shown st ->
  Page.render_from displayable (Z.of_nat c) (before ++ x :: after) (length shown) st
  = Error Page.MediaFileStorageError.
Proof.
  intros Hc Hbefore Hx. revert shown st.
  induction Hbefore as [|y before Hy _ IH]; intros shown st Hgrid; simpl.
  - destruct (place_laid_out c shown x st Hc Hgrid) as (st1 & _ & ->). by rewrite Hx.
  - destruct (place_laid_out c shown y st Hc Hgrid) as (st1 & Hgrid1 & ->).
    rewrite Hy. specialize (IH (shown ++ [y]) st1 Hgrid1).
    rewrite length_app in IH. simpl in IH. by rewrite Nat.add_1_r in IH.
Qed.

Lemma length_slice_to {A} (l : list A) (stop : Z) :
  (0 <= stop)%Z -> (Z.of_nat (length (Page.slice_to l stop)) <= stop)%Z.
Proof.
  intros Hstop. unfold Page.slice_to.
  destruct (Z.ltb_spec stop 0) as [?|_]; [lia|]. rewrite length_take. lia.
Qed.

(** X9: with at least one column, when Streamlit can display every one of
    the first [columns * max_rows] results, the loop runs to its end: [cols]
    is bound before it is subscripted and every subscript is in range.  It
    lays those results out as a grid, full rows of [columns] images and
    then the images left over from the left of a last row; read row by row
    the page shows exactly those results in their order, and it has at most
    [max_rows] rows.  When Streamlit cannot display one of them the loop
    ends at the first such result with Streamlit's error. *)
Theorem render_lays_out_grid results columns max_rows :
  (1 <= columns)%Z -> (0 <= max_rows)%Z ->
  (Forall (fun x => displayable x = true) (Page.slice_to results (columns * max_rows)) ->
   exists st,
     Page.render displayable results columns max_rows = Ok st
     /\ Page.laid_out (Z.to_nat columns) (Page.slice_to results (columns * max_rows)) st
     /\ concat (concat (Page.page st)) = Page.slice_to results (columns * max_rows)
     /\ Forall (fun row => length row = Z.to_nat columns) (Page.page st)
     /\ (Z.of_nat (length (Page.page st)) <= max_rows)%Z)
  /\ (forall before x after,
        Page.slice_to results (columns * max_rows) = before ++ x :: after ->
        Forall (fun x => displayable x = true) before ->
        displayable x = false ->
        Page.render displayable results columns max_rows
        = Error Page.MediaFileStorageError).
Proof.
  intros Hcolumns Hrows. unfold Page.render.
  set (shown := Page.slice_to results (columns * max_rows)).
  assert (Z.of_nat (length shown) <= columns * max_rows)%Z as Hshown
    by (apply length_slice_to; lia).
  split.
  - intros Hdisplayable.
    destruct (render_from_laid_out (Z.to_nat columns) shown [] Page.blank)
      as (st & Hrun & Hgrid); [lia|done|by left|].
    rewrite Z2Nat.id in Hrun by lia. simpl in Hrun, Hgrid.
    exists st. split; [done|]. split; [done|].
    destruct Hgrid as [[Hnil ->]|(full & last & Heq & Hfull & Hlast & Habove & Hcols)].
    + rewrite Hnil. simpl. split_and!; [done|constructor|lia].
    + unfold Page.page. rewrite Habove, Hcols. simpl. split_and!.
      * rewrite concat_app, concat_app, concat_rows. cbn [concat].
        by rewrite !app_nil_r, concat_row_of, Heq.
      * apply Forall_app. split.
        -- apply Forall_fmap. eapply Forall_impl; [exact Hfull|].
           intros r Hr. simpl in Hr |- *. apply length_row_of. by rewrite Hr.
        -- constructor; [|constructor]. apply length_row_of. lia.
      * rewrite length_app, length_fmap. simpl.
        rewrite Heq, length_app, (length_concat_rows full (Z.to_nat columns)) in Hshown
          by done.
        nia.
  - intros before x after -> Hbefore Hx.
    pose proof (render_from_stops (Z.to_nat columns) before x after [] Page.blank) as Hstop.
    rewrite Z2Nat.id in Hstop by lia. apply Hstop; [lia|done|done|by left].
Qed.

End Grid.

(** Three image URLs in two columns, for a Streamlit that displays URLs: a
    full row and a row with one image. *)
Lemma render_lays_out_grid_witness :
  exists st,
    Page.render (String.prefix "http") ["http://a"; "http://b"; "http://c"] 2 8 = Ok st
    /\ Page.page st = [[["http://a"]; ["http://b"]]; [["http://c"]; []]].
Proof.
  destruct (render_lays_out_grid (String.prefix "http")
              ["http://a"; "http://b"; "http://c"] 2 8) as [Hgrid _]; [lia|lia|].
  destruct Hgrid as (st & Hrun & _).
  - repeat constructor.
  - exists st. split; [exact Hrun|].
    vm_compute in Hrun. injection Hrun as <-. reflexivity.
Defined.

(** ** Where each result is shown *)

Section Positions.
Context (displayable : string -> bool).
Implicit Types (shown last : list string) (full : list (list string)) (c i : nat).

Lemma row_of_lookup c last i x :
  last !! i = Some x -> Page.row_of c last !! i = Some [x].
Proof.
  intros Hx. unfold Page.row_of.
  rewrite lookup_app_l by (rewrite length_fmap; by eapply lookup_lt_Some).
  by rewrite list_lookup_fmap, Hx.
Qed.

(** In full rows of [c] images followed by a last row, the image number
    [i] stands alone in row [i / c], container [i mod c]. *)
Lemma grid_lookup c full last i x :
  0 < c ->
  Forall (fun r => length r = c) full ->
  length last <= c ->
  (concat full ++ last) !! i = Some x ->
  exists row, ((Page.row_of c <$> full) ++ [Page.row_of c last]) !! (i / c) = Some row
              /\ row !! (i mod c) = Some [x].
Proof.
  intros Hc Hfull Hlast. revert i.
  induction Hfull as [|r full Hr _ IH]; intros i Hx; simpl in Hx.
  - pose proof (lookup_lt_Some _ _ _ Hx) as Hi.
    rewrite Nat.div_small, Nat.mod_small by lia. simpl.
    eexists. split; [done|]. by apply row_of_lookup.
  - destruct (decide (i < c)) as [Hi|Hi].
    + rewrite <- (assoc_L (++)), lookup_app_l in Hx by lia.
      rewrite Nat.div_small, Nat.mod_small by lia. simpl.
      eexists. split; [done|]. by apply row_of_lookup.
    + rewrite <- (assoc_L (++)), lookup_app_r in Hx by lia. rewrite Hr in Hx.
      destruct (IH (i - c) Hx) as (row & Hrow & Hcell).
      assert (i / c = S ((i - c) / c)) as ->.
      { replace i with ((i - c) + 1 * c) at 1 by lia.
        rewrite Nat.div_add by lia. lia. }
      assert (i mod c = (i - c) mod c) as ->.
      { replace i with ((i - c) + 1 * c) at 1 by lia.
        by rewrite Nat.Div0.mod_add. }
      exists row. split; [|done]. simpl. exact Hrow.
Qed.

(** X10: with at least one column, when Streamlit can display every one of
    the results shown, the result number [i] of them, counting from 0,
    stands alone in the container [i mod columns] of the row [i / columns]
    of the page. *)
Theorem render_positions results columns max_rows i x :
  (1 <= columns)%Z -> (0 <= max_rows)%Z ->
  Forall (fun x => displayable x = true) (Page.slice_to results (columns * max_rows)) ->
  Page.slice_to results (columns * max_rows) !! i = Some x ->
  exists st row,
    Page.render displayable results columns max_rows = Ok st
    /\ Page.page st !! (i / Z.to_nat columns) = Some row
    /\ row !! (i mod Z.to_nat columns) = Some [x].
Proof.
  intros Hcolumns Hrows Hdisplayable Hx.
  destruct (render_from_laid_out displayable (Z.to_nat columns)
              (Page.slice_to results (columns * max_rows)) [] Page.blank)
    as (st & Hrun & Hgrid); [lia|done|by left|].
  rewrite Z2Nat.id in Hrun by lia. simpl in Hrun, Hgrid.
  destruct Hgrid as [[Hnil _]|(full & last & Heq & Hfull & Hlast & Habove & Hcols)].
  - rewrite Hnil in Hx. by rewrite lookup_nil in Hx.
  - rewrite Heq in Hx.
    destruct (grid_lookup (Z.to_nat columns) full last i x) as (row & Hrow & Hcell);
      [lia|done|lia|done|].
    exists st, row. split; [done|]. split; [|done].
    unfold Page.page. by rewrite Habove, Hcols.
Qed.

End Positions.

(** The third of three image URLs in two columns opens the second row. *)
Lemma render_positions_witness :
  exists st row,
    Page.render (String.prefix "http") ["http://a"; "http://b"; "http://c"] 2 8 = Ok st
    /\ Page.page st !! (2 / Z.to_nat 2) = Some row
    /\ row !! (2 mod Z.to_nat 2) = Some ["http://c"].
Proof.
  apply (render_positions (String.prefix "http")
           ["http://a"; "http://b"; "http://c"] 2 8 2 "http://c"); [lia|lia| |].
  - repeat constructor.
  - vm_compute. reflexivity.
Defined.

(** ** The last line of the URI file and the shape of a query *)

Section Edges.
Context {F : Foreign} {L : Libraries}.
Implicit Types (fs : gmap string file) (g : Server.Globals) (D : Dataset).

Lemma append_line_assoc (l rest tail : string) (c : Ascii.ascii) :
  (l +:+ String c rest) +:+ tail = l +:+ String c (rest +:+ tail).
Proof.
  induction l as [|c' l IH]; [done|].
  change ((String c' l +:+ String c rest) +:+ tail)
    with (String c' ((l +:+ String c rest) +:+ tail)).
  by rewrite IH.
Qed.

Lemma splitlines_unfinished (lines : list string) (tail : string) :
  Forall no_break lines -> no_break tail -> tail <> EmptyString ->
  splitlines (unlines lines +:+ tail) = lines ++ [tail].
Proof.
  intros Hlines Htail Hne. unfold splitlines.
  induction Hlines as [|l lines Hl _ IH].
  - change (unlines [] +:+ tail) with tail.
    rewrite <- (append_empty_r tail) at 1.
    rewrite splitlines_from_line by done.
    change (EmptyString +:+ tail) with tail. simpl.
    by destruct (decide (tail = EmptyString)).
  - cbn [unlines]. rewrite append_line_assoc, splitlines_from_line by done.
    change (EmptyString +:+ l) with l.
    destruct line_feed_breaks as [Hbreak Hcr].
    cbn [splitlines_from andb]. by rewrite Hbreak, Hcr, IH.
Qed.

(** X11: the line feed after the last URI is optional: a URI file that
    ends with a URI and no line feed is read as the same list as the file
    that ends every URI with one. *)
Theorem open_dataset_last_line fs dir D lines tail :
  Server.open_dataset fs dir = Return D ->
  fs !! path_join dir "images.txt" = Some (TextFile (unlines lines +:+ tail)) ->
  Forall no_break lines -> no_break tail -> tail <> EmptyString ->
  uris D = lines ++ [tail] /\ uris D = splitlines (unlines (lines ++ [tail])).
Proof.
  intros Hopen Htext Hlines Htail Hne.
  apply open_dataset_Return in Hopen as (n & text & _ & _ & _ & Ht & Hu).
  rewrite Htext in Ht. injection Ht as <-. rewrite Hu.
  rewrite splitlines_unfinished by done. split; [done|].
  rewrite splitlines_unlines; [done|].
  apply Forall_app. split; [done|]. by repeat constructor.
Qed.

(** X12: only the elements of the query array count, not its shape: two
    arrays with the same elements in row-major order, such as a row of a
    matrix and its flat copy, get the same reply. *)
Theorem find_vector_any_shape g name (vector vector' : ndarray scalar) count :
  data vector = data vector' ->
  Server.find_vector name vector count g = Server.find_vector name vector' count g.
Proof.
  intros Hdata. unfold Server.find_vector.
  assert (flatten vector = flatten vector') as ->; [|done].
  unfold flatten. by rewrite Hdata.
Qed.

End Edges.

Lemma open_dataset_last_line_witness :
  uris (F := Sample.foreign) (Sample.loaded 2 4 4 [0; 1]%Z ["c0"; "c1"]) = ["c0"] ++ ["c1"]
  /\ uris (F := Sample.foreign) (Sample.loaded 2 4 4 [0; 1]%Z ["c0"; "c1"])
     = splitlines (unlines (["c0"] ++ ["c1"])).
Proof.
  apply (open_dataset_last_line (L := Sample.libraries) Sample.fs_agree "cc3m").
  - vm_compute. reflexivity.
  - vm_compute. reflexivity.
  - repeat constructor; vm_compute; reflexivity.
  - repeat constructor; vm_compute; reflexivity.
  - discriminate.
Defined.

(** A matrix of one row and the flat array of its four elements. *)
Lemma find_vector_any_shape_witness :
  Server.find_vector (F := Sample.foreign) "cc3m" (Sample.zeros 1 4) 2
    (Sample.serving Sample.fs_agree)
  = Server.find_vector (F := Sample.foreign) "cc3m"
      (NdArray [4] (replicate 4 0%Z) : ndarray Z) 2
      (Sample.serving Sample.fs_agree).
Proof.
  apply (find_vector_any_shape (F := Sample.foreign)). reflexivity.
Defined.
